(** * arxiv_alert: the fetch / filter / dedup pipeline of [arxiv_alert_cron_edited.py]

  A shallow embedding of the pure core of the alert job: query construction,
  date parsing, keyword matching, the pagination loop, the filter chain, the
  dedup store and the per-entry rendering, followed by the properties the
  specification states about them.

  Python values are modelled as follows: [str] as [string] (the ASCII
  fragment: one [ascii] per character), [set] of identifiers as [gset string],
  [list] as [list], [None]-able values as [option], dates as a record of
  integers. *)

From Stdlib Require Import ZArith Lia Ascii DecimalString DecimalNat.
From stdpp Require Import base gmap strings list.
From Equations Require Import Equations.

Local Open Scope Z_scope.
Local Open Scope stdpp_scope.

(** ** Python string primitives *)

Module PyStr.

(** The double-quote character (code point 34). *)
Definition dquote : ascii := ascii_of_nat 34.

(** [c.lower()] on one character: 'A'..'Z' move to 'a'..'z'. *)
Definition lower_char (c : ascii) : ascii :=
  let n := nat_of_ascii c in
  if ((65 <=? n)%nat && (n <=? 90)%nat)%bool then ascii_of_nat (n + 32) else c.

(** [s.lower()] *)
Fixpoint lower (s : string) : string :=
  match s with
  | EmptyString => EmptyString
  | String c s' => String (lower_char c) (lower s')
  end.

(** [s.startswith(p)] *)
Fixpoint startswith (p s : string) : bool :=
  match p, s with
  | EmptyString, _ => true
  | String _ _, EmptyString => false
  | String a p', String b s' => Ascii.eqb a b && startswith p' s'
  end.

(** [sub in s]: the substring test. *)
Fixpoint contains (sub s : string) : bool :=
  match s with
  | EmptyString => startswith sub EmptyString
  | String _ s' => startswith sub s || contains sub s'
  end.

(** [s.lstrip(c)] and [s.rstrip(c)] for a one-character set, [s.strip(c)]. *)
Fixpoint lstrip (c : ascii) (s : string) : string :=
  match s with
  | EmptyString => EmptyString
  | String a s' => if Ascii.eqb a c then lstrip c s' else s
  end.

Fixpoint rstrip (c : ascii) (s : string) : string :=
  match s with
  | EmptyString => EmptyString
  | String a s' =>
      match rstrip c s' with
      | EmptyString => if Ascii.eqb a c then EmptyString else String a EmptyString
      | r => String a r
      end
  end.

Definition strip (c : ascii) (s : string) : string := rstrip c (lstrip c s).

(** [sep.join(l)] *)
Fixpoint join (sep : string) (l : list string) : string :=
  match l with
  | [] => EmptyString
  | [x] => x
  | x :: l' => x +:+ sep +:+ join sep l'
  end.

(** [s.split(sep)] for a non-empty separator: left-to-right scan for
    non-overlapping occurrences.  [skip] counts the characters of a
    separator occurrence still to be consumed, [cur] is the piece being
    accumulated. *)
Fixpoint split_go (sep : string) (skip : nat) (cur : string) (s : string)
  : list string :=
  match s with
  | EmptyString => [cur]
  | String c s' =>
      match skip with
      | S k => split_go sep k cur s'
      | O =>
          if startswith sep s
          then cur :: split_go sep (String.length sep - 1) EmptyString s'
          else split_go sep 0 (cur +:+ String c EmptyString) s'
      end
  end.

Definition split (sep s : string) : list string := split_go sep 0 EmptyString s.

(** [l[0]] and [l[-1]] on the (never empty) result of [split]. *)
Definition first (l : list string) : string := hd EmptyString l.
Definition last (l : list string) : string := List.last l EmptyString.

(** The characters of [s] before the first occurrence of [c]. *)
Fixpoint before_char (c : ascii) (s : string) : string :=
  match s with
  | EmptyString => EmptyString
  | String a s' => if Ascii.eqb a c then EmptyString else String a (before_char c s')
  end.

(** [c in s] for a character. *)
Fixpoint has_char (c : ascii) (s : string) : bool :=
  match s with
  | EmptyString => false
  | String a s' => Ascii.eqb a c || has_char c s'
  end.

(** [n] copies of [c]. *)
Fixpoint repeat_char (c : ascii) (n : nat) : string :=
  match n with
  | O => EmptyString
  | S k => String c (repeat_char c k)
  end.

Definition starts_with_char (c : ascii) (s : string) : bool :=
  match s with
  | String a _ => Ascii.eqb a c
  | EmptyString => false
  end.

Fixpoint ends_with_char (c : ascii) (s : string) : bool :=
  match s with
  | EmptyString => false
  | String a EmptyString => Ascii.eqb a c
  | String _ s' => ends_with_char c s'
  end.

End PyStr.

(** ** Keyword matching *)

Section Keywords.
Import PyStr.

(** The [found_in] list of [find_matching_keywords]. *)
Definition found_in (clean_keyword title_lower abstract_lower : string)
  : list string :=
  (if contains clean_keyword title_lower then ["title"] else [])
    ++ (if contains clean_keyword abstract_lower then ["abstract"] else []).

(** One iteration of the loop of [find_matching_keywords]: the annotations
    appended for [keyword] (none or one). *)
Definition match_keyword (title_lower abstract_lower keyword : string)
  : list string :=
  let clean_keyword := lower (strip dquote keyword) in
  if contains clean_keyword title_lower || contains clean_keyword abstract_lower
  then [keyword +:+ " (" +:+ join ", " (found_in clean_keyword title_lower abstract_lower) +:+ ")"]
  else [].

(** [find_matching_keywords(title, abstract, keywords)] *)
Definition find_matching_keywords (title abstract : string)
    (keywords : list string) : list string :=
  let title_lower := lower title in
  let abstract_lower := lower abstract in
  foldl (fun matching_keywords keyword =>
           matching_keywords ++ match_keyword title_lower abstract_lower keyword)
        [] keywords.

End Keywords.

(** ** Calendar dates ([datetime.date]) *)

Record date := mkdate { year : Z; month : Z; day : Z }.

Definition is_leap (y : Z) : bool :=
  (y mod 4 =? 0) && (negb (y mod 100 =? 0) || (y mod 400 =? 0)).

Definition days_in_month (y m : Z) : Z :=
  if m =? 2 then (if is_leap y then 29 else 28)
  else if (m =? 4) || (m =? 6) || (m =? 9) || (m =? 11) then 30
  else 31.

(** What the [date] constructor accepts (anything else is a [ValueError]). *)
Definition valid_date (y m d : Z) : bool :=
  (1 <=? y) && (y <=? 9999) && (1 <=? m) && (m <=? 12)
  && (1 <=? d) && (d <=? days_in_month y m).

(** [a <= b] on dates. *)
Definition date_le (a b : date) : bool :=
  (year a <? year b)
  || ((year a =? year b)
      && ((month a <? month b) || ((month a =? month b) && (day a <=? day b)))).

(** [d - timedelta(days=1)], and [d - timedelta(days=n)] as [n] such steps,
    for dates the subtraction reaches: from 0001-01-01, the first date there
    is, Python raises [OverflowError]; the step below gives a year 0 there,
    which [valid_date] rejects. *)
Definition prev_day (d : date) : date :=
  if 1 <? day d then mkdate (year d) (month d) (day d - 1)
  else if 1 <? month d
       then mkdate (year d) (month d - 1) (days_in_month (year d) (month d - 1))
       else mkdate (year d - 1) 12 31.

Definition minus_days (d : date) (n : Z) : date := Nat.iter (Z.to_nat n) prev_day d.

(** Decimal rendering of integers: [str(n)] and zero-padded fields. *)
Definition digit_char (n : Z) : ascii := ascii_of_nat (48 + Z.to_nat (n mod 10)).

Definition pad2 (n : Z) : string :=
  String (digit_char (n / 10)) (String (digit_char n) EmptyString).

Definition pad4 (n : Z) : string :=
  String (digit_char (n / 1000)) (String (digit_char (n / 100)) (pad2 n)).

Definition str_of_nat (n : nat) : string := NilEmpty.string_of_uint (Nat.to_uint n).

Definition month_abbr (m : Z) : string :=
  nth (Z.to_nat (m - 1))
      ["Jan"; "Feb"; "Mar"; "Apr"; "May"; "Jun"; "Jul"; "Aug"; "Sep"; "Oct"; "Nov"; "Dec"]
      "".

(** [d.strftime("%Y%m%d")], [d.strftime("%Y-%m-%d")] and
    [d.strftime("%d %b %Y")]; the year is written with four digits. *)
Definition strftime_Ymd (d : date) : string :=
  pad4 (year d) +:+ pad2 (month d) +:+ pad2 (day d).

Definition strftime_Y_m_d (d : date) : string :=
  pad4 (year d) +:+ "-" +:+ pad2 (month d) +:+ "-" +:+ pad2 (day d).

Definition strftime_d_b_Y (d : date) : string :=
  pad2 (day d) +:+ " " +:+ month_abbr (month d) +:+ " " +:+ pad4 (year d).

(** ** [datetime.strptime(s, '%Y-%m-%d')]

    The format compiles to the regular expression
    [(\d\d\d\d)-(1[0-2]|0[1-9]|[1-9])-(3[0-1]|[1-2]\d|0[1-9]|[1-9]| [1-9])];
    the whole string must be consumed and the fields must name a real date.
    Alternatives are tried in order; no alternative that is tried later can
    succeed where an earlier one matched and the rest failed, so the first
    matching alternative decides. *)

Section Strptime.

Definition char_in (lo hi : nat) (c : ascii) : bool :=
  let n := nat_of_ascii c in ((lo <=? n)%nat && (n <=? hi)%nat)%bool.

(** [\d] and the classes [[a-b]] of digits. *)
Definition is_digit : ascii -> bool := char_in 48 57.
Definition digit_range (a b : nat) : ascii -> bool := char_in (48 + a) (48 + b).
Definition is_char (x : ascii) (c : ascii) : bool := Ascii.eqb c x.

(** The value [int] gives to one character of a matched field (a space
    counts for nothing: [int(" 5") = 5]). *)
Definition digit_value (c : ascii) : Z :=
  if is_digit c then Z.of_nat (nat_of_ascii c) - 48 else 0.

(** One alternative of two characters, and one of a single character. *)
Definition two_chars (p1 p2 : ascii -> bool) (s : string) : option (Z * string) :=
  match s with
  | String a (String b r) =>
      if p1 a && p2 b then Some (10 * digit_value a + digit_value b, r) else None
  | _ => None
  end.

Definition one_char (p : ascii -> bool) (s : string) : option (Z * string) :=
  match s with
  | String a r => if p a then Some (digit_value a, r) else None
  | EmptyString => None
  end.

(** Ordered choice between alternatives. *)
Fixpoint first_match (alts : list (string -> option (Z * string))) (s : string)
  : option (Z * string) :=
  match alts with
  | [] => None
  | alt :: alts' =>
      match alt s with
      | Some r => Some r
      | None => first_match alts' s
      end
  end.

Definition match_Y (s : string) : option (Z * string) :=
  match s with
  | String a (String b (String c (String d r))) =>
      if is_digit a && is_digit b && is_digit c && is_digit d
      then Some (1000 * digit_value a + 100 * digit_value b
                 + 10 * digit_value c + digit_value d, r)
      else None
  | _ => None
  end.

Definition match_m : string -> option (Z * string) :=
  first_match [ two_chars (is_char "1") (digit_range 0 2);
                two_chars (is_char "0") (digit_range 1 9);
                one_char (digit_range 1 9) ].

Definition match_d : string -> option (Z * string) :=
  first_match [ two_chars (is_char "3") (digit_range 0 1);
                two_chars (digit_range 1 2) is_digit;
                two_chars (is_char "0") (digit_range 1 9);
                one_char (digit_range 1 9);
                two_chars (is_char " ") (digit_range 1 9) ].

Definition match_dash (s : string) : option string :=
  match s with
  | String c r => if is_char "-" c then Some r else None
  | EmptyString => None
  end.

(** [datetime.strptime(s, '%Y-%m-%d').date()]; [None] stands for the
    [ValueError] the call raises. *)
Definition strptime_Y_m_d (s : string) : option date :=
  '(y, r1) ← match_Y s;
  r2 ← match_dash r1;
  '(m, r3) ← match_m r2;
  r4 ← match_dash r3;
  '(d, r5) ← match_d r4;
  match r5 with
  | EmptyString => if valid_date y m d then Some (mkdate y m d) else None
  | String _ _ => None
  end.

End Strptime.

(** [parse_arxiv_date(date_str)].  The argument is [None] or a string; on
    [None] the attribute lookup [date_str.split] raises [AttributeError],
    which the function catches together with [ValueError]. *)
Definition parse_arxiv_date (date_str : option string) : option date :=
  match date_str with
  | None => None
  | Some s => strptime_Y_m_d (PyStr.first (PyStr.split "T" s))
  end.

(** ** Entries of the feed *)

Record link := mklink { link_type : option string; href : string }.

(** One [feedparser] entry.  A date attribute that the entry does not have is
    [None]; [authors] is [None] when the attribute is missing. *)
Record entry := mkentry {
  id : string;
  title : string;
  summary : string;
  tags : list string;
  links : list link;
  authors : option (list string);
  arxiv_updated : option string;
  updated : option string;
  published : option string;
  arxiv_created : option string
}.

(** [hasattr(entry, f) and entry.f]: the attribute exists and is not empty. *)
Definition present (field : option string) : bool :=
  match field with
  | Some (String _ _) => true
  | _ => false
  end.

(** [start_date <= d <= end_date] *)
Definition in_window (start_date end_date d : date) : bool :=
  date_le start_date d && date_le d end_date.

(** The verdict one date field gives in [is_date_in_range], if it gives one:
    the field must be present and must parse. *)
Definition field_verdict (start_date end_date : date) (field : option string)
  : option bool :=
  if present field
  then in_window start_date end_date <$> parse_arxiv_date field
  else None.

(** [is_date_in_range(entry, start_date, end_date)] (its log lines are left
    out; no operation of the body can raise on this entry type). *)
Definition is_date_in_range (e : entry) (start_date end_date : date) : bool :=
  match field_verdict start_date end_date (arxiv_updated e) with
  | Some in_range => in_range
  | None =>
  match field_verdict start_date end_date (updated e) with
  | Some in_range => in_range
  | None =>
  match field_verdict start_date end_date (published e) with
  | Some in_range => in_range
  | None =>
  match field_verdict start_date end_date (arxiv_created e) with
  | Some in_range => in_range
  | None => true
  end end end end.

(** ** Query construction *)

(** [if xs:] on an optional list: given and not empty. *)
Definition given {A} (xs : option (list A)) : list A :=
  match xs with Some l => l | None => [] end.

Definition nonempty {A} (l : list A) : bool :=
  match l with [] => false | _ :: _ => true end.

(** The list [query_parts] of [build_arxiv_query]. *)
Definition query_parts (categories keywords authors : option (list string))
    (start_date end_date : option date) : list string :=
  (if nonempty (given categories)
   then ["(" +:+ PyStr.join " OR " ((fun cat => "cat:" +:+ cat) <$> given categories) +:+ ")"]
   else [])
  ++ (if nonempty (given keywords)
      then ["(" +:+ PyStr.join " OR "
                   ((fun kw => "(ti:" +:+ kw +:+ " OR abs:" +:+ kw +:+ ")") <$> given keywords)
            +:+ ")"]
      else [])
  ++ (if nonempty (given authors)
      then ["(" +:+ PyStr.join " OR " ((fun auth => "au:" +:+ auth) <$> given authors) +:+ ")"]
      else [])
  ++ (match start_date, end_date with
      | Some s, Some e =>
          ["submittedDate:[" +:+ (strftime_Ymd s +:+ "0000") +:+ "+TO+"
             +:+ (strftime_Ymd e +:+ "2359") +:+ "]"]
      | _, _ => []
      end).

(** [build_arxiv_query(categories, keywords, authors, start_date, end_date)] *)
Definition build_arxiv_query (categories keywords authors : option (list string))
    (start_date end_date : option date) : string :=
  let parts := query_parts categories keywords authors start_date end_date in
  if nonempty parts then PyStr.join "+AND+" parts else "*".

(** ** The dedup store *)

Section Store.

(** [list(s)]: the order in which Python iterates over the set.  It is fixed
    by the hash table, not by the program, so it is a parameter here. *)
Variable set_to_list : gset string -> list string.

(** [clean_old_processed_papers(processed_papers)] ([days_to_keep] is not
    used by the body); [l[-500:]] is the last 500 elements of [l]. *)
Definition clean_old_processed_papers (processed_papers : gset string)
  : gset string :=
  if (1000 <? size processed_papers)%nat
  then
    let l := set_to_list processed_papers in
    list_to_set (drop (length l - 500) l)
  else processed_papers.

End Store.

(** ** Fetching: keyword batches and pagination *)

(** [entry.id.split('/abs/')[-1]] *)
Definition entry_id (e : entry) : string := PyStr.last (PyStr.split "/abs/" (id e)).

(** [arxiv_id.split('v')[0] if 'v' in arxiv_id else arxiv_id] *)
Definition base_arxiv_id (arxiv_id : string) : string :=
  if PyStr.has_char "v" arxiv_id then PyStr.first (PyStr.split "v" arxiv_id)
  else arxiv_id.

Definition max_results_per_call : Z := 200.

(** [min(2000, 200 * amount_of_days)] *)
Definition max_total_results (amount_of_days : Z) : Z :=
  Z.min 2000 (200 * amount_of_days).

(** The list [keyword_batches]: slices of 15 keywords when there are more
    than 15, the whole list when there are some, [None] otherwise. *)
Definition keyword_batches (keywords : option (list string))
  : list (option (list string)) :=
  let kws := given keywords in
  if (15 <? length kws)%nat
  then (fun i => Some (take 15 (drop (15 * i) kws)))
         <$> seq 0 ((length kws + 14) / 15)
  else if nonempty kws then [Some kws] else [None].

(** [all_entries] and [all_entry_ids], shared by all batches and pages. *)
Record fetched := mkfetched {
  all_entries : list entry;
  all_entry_ids : gset string
}.

(** The body of [for entry in feed.entries]: an entry is kept when its
    identifier (version included) has not been seen in this run. *)
Definition add_entry (acc : fetched) (e : entry) : fetched :=
  if bool_decide (entry_id e ∈ all_entry_ids acc) then acc
  else mkfetched (all_entries acc ++ [e]) ({[entry_id e]} ∪ all_entry_ids acc).

Definition add_page (acc : fetched) (entries : list entry) : fetched :=
  foldl add_entry acc entries.

(** The variables of the [while] loop of one keyword batch; [requests] is
    the list of offsets of the "Fetching page" log lines, one per request. *)
Record batch_state := mkbatch {
  so_far : fetched;
  page_num : nat;
  total_fetched : nat;
  requests : list Z
}.

Section Fetch.

(** The search API: the answer to a request with the given [search_query],
    [start] and [max_results]; [None] when the request or its decoding fails
    ([fetch_arxiv_batch] then returns [None]). *)
Variable arxiv_api : string -> Z -> Z -> option (list entry).

(** [fetch_arxiv_batch(...)] *)
Definition fetch_arxiv_batch (categories keywords_batch authors : option (list string))
    (start_date end_date : option date) (max_results start : Z)
  : option (list entry) :=
  arxiv_api (build_arxiv_query categories keywords_batch authors start_date end_date)
            start max_results.

(** The [while start < max_total_results] loop, for the page source
    [fetch_page] of one batch. *)
Equations paginate (fetch_page : Z -> option (list entry)) (cap : Z)
    (start : Z) (st : batch_state) : batch_state
  by wf (Z.to_nat (cap - start)) lt :=
paginate fetch_page cap start st with Z_lt_dec start cap := {
  | right _ => st
  | left _ with fetch_page start := {
      | None =>
          mkbatch (so_far st) (S (page_num st)) (total_fetched st)
                  (requests st ++ [start])
      | Some [] =>
          mkbatch (so_far st) (S (page_num st)) (total_fetched st)
                  (requests st ++ [start])
      | Some (e :: es) with Z_lt_dec (Z.of_nat (length (e :: es))) max_results_per_call := {
          | left _ =>
              mkbatch (add_page (so_far st) (e :: es)) (S (page_num st))
                      (total_fetched st + length (e :: es))%nat
                      (requests st ++ [start])
          | right _ =>
              paginate fetch_page cap (start + max_results_per_call)
                (mkbatch (add_page (so_far st) (e :: es)) (S (page_num st))
                         (total_fetched st + length (e :: es))%nat
                         (requests st ++ [start])) } } }.
Next Obligation. unfold max_results_per_call. lia. Qed.

(** One iteration of [for batch_idx, keyword_batch in enumerate(keyword_batches)]. *)
Definition fetch_keyword_batch (categories authors : option (list string))
    (api_start_window yesterday : date) (cap : Z)
    (acc : fetched) (keyword_batch : option (list string)) : batch_state :=
  paginate
    (fetch_arxiv_batch categories keyword_batch authors
       (Some api_start_window) (Some yesterday) max_results_per_call)
    cap 0 (mkbatch acc 0 0 []).

Definition fetch_all (categories keywords authors : option (list string))
    (api_start_window yesterday : date) (cap : Z) : fetched :=
  foldl (fun acc keyword_batch =>
           so_far (fetch_keyword_batch categories authors api_start_window
                     yesterday cap acc keyword_batch))
        (mkfetched [] ∅) (keyword_batches keywords).

End Fetch.

(** ** The filter chain *)

(** How the checks of the per-entry loop end for one entry. *)
Inductive verdict :=
| RejectedRequired
| RejectedExcluded (excluded_found : list string)
| RejectedKeywords
| Accepted (matching_keywords : list string).

(** [any(cat_lower in wanted_lower for cat_lower in all_categories_lower)] *)
Definition any_in (wanted_lower all_categories_lower : list string) : bool :=
  existsb (fun cat_lower => bool_decide (cat_lower ∈ wanted_lower)) all_categories_lower.

(** [[cat for cat, cat_lower in zip(...) if cat_lower in excluded_categories_lower]] *)
Definition excluded_found_in (excluded_lower all_categories : list string)
  : list string :=
  List.filter (fun cat => bool_decide (PyStr.lower cat ∈ excluded_lower)) all_categories.

(** The three checks of the loop body, in program order; each rejection is a
    [continue]. *)
Definition filter_chain (categories excluded_categories keywords : option (list string))
    (e : entry) : verdict :=
  let all_categories := tags e in
  let all_categories_lower := PyStr.lower <$> all_categories in
  if nonempty (given categories)
     && negb (any_in (PyStr.lower <$> given categories) all_categories_lower)
  then RejectedRequired
  else
    if nonempty (given excluded_categories)
       && any_in (PyStr.lower <$> given excluded_categories) all_categories_lower
    then RejectedExcluded
           (excluded_found_in (PyStr.lower <$> given excluded_categories) all_categories)
    else
      match keywords with
      | Some kws =>
          let matching_keywords := find_matching_keywords (title e) (summary e) kws in
          if nonempty matching_keywords then Accepted matching_keywords
          else RejectedKeywords
      | None => Accepted []
      end.

(** ** Rendering of one entry *)

Section Render.

(** [get_paper_comments(arxiv_id)]: the text scraped from the abstract page
    (or one of its two placeholder strings). *)
Variable get_paper_comments : string -> string.

Definition q : string := String PyStr.dquote EmptyString.

(** The [for link in entry.links] search for the PDF link. *)
Fixpoint pdf_link_of (default : string) (ls : list link) : string :=
  match ls with
  | [] => default
  | l :: ls' =>
      if bool_decide (link_type l = Some "application/pdf") then href l
      else pdf_link_of default ls'
  end.

Definition new_badge (is_already_processed : bool) : string :=
  if is_already_processed
  then " <span style=" +:+ q +:+ "color: #999; font-size: 0.8em;" +:+ q
       +:+ ">(seen before)</span>"
  else " <span style=" +:+ q
       +:+ "color: #45ABC2; font-size: 0.8em; font-weight: bold;" +:+ q
       +:+ ">[NEW]</span>".

Definition title_html (e : entry) (is_already_processed : bool) : string :=
  "<a href=" +:+ q +:+ pdf_link_of (id e) (links e) +:+ q +:+ " target=" +:+ q
  +:+ "_blank" +:+ q +:+ "><h2>" +:+ title e +:+ new_badge is_already_processed
  +:+ "</h2></a>".

Definition authors_html (e : entry) : string :=
  match authors e with
  | Some names =>
      "<strong><u>Authors:</u></strong> " +:+ PyStr.join ", " names +:+ "<br>"
  | None => ""
  end.

Definition published_html (e : entry) : string :=
  match published e with
  | Some s =>
      match parse_arxiv_date (Some s) with
      | Some pub_date =>
          "<strong><u>Published:</u></strong> " +:+ strftime_Y_m_d pub_date +:+ "<br>"
      | None => ""
      end
  | None => ""
  end.

Definition keywords_html (keywords : option (list string))
    (matching_keywords : list string) : string :=
  match keywords with
  | None =>
      "<strong><u>Matching Keywords:</u></strong> Not evaluated (no keywords configured)<br>"
  | Some _ =>
      if nonempty matching_keywords
      then "<strong><u>Matching Keywords:</u></strong> "
           +:+ PyStr.join ", " matching_keywords +:+ "<br>"
      else "<strong><u>Matching Keywords:</u></strong> None<br>"
  end.

(** Everything the loop body appends to [body] for an accepted entry. *)
Definition entry_html (keywords : option (list string)) (e : entry)
    (is_already_processed : bool) (matching_keywords : list string) : string :=
  title_html e is_already_processed
  +:+ authors_html e
  +:+ ("<strong><u>Categories:</u></strong> " +:+ PyStr.join ", " (tags e) +:+ "<br>")
  +:+ ("<strong><u>Comments:</u></strong> " +:+ get_paper_comments (entry_id e) +:+ "<br>")
  +:+ published_html e
  +:+ keywords_html keywords matching_keywords
  +:+ ("<p><strong><u>Abstract:</u></strong> " +:+ summary e +:+ "</p>")
  +:+ "<br><hr><br>".

End Render.

(** ** The per-entry loop of [arxiv_alert] *)

(** The log lines of the loop, by kind. *)
Inductive log_event :=
| DateCheckIncludedAnyway (arxiv_id : string) (entry_date_info : list string)
| NoDateInfoIncludedAnyway (arxiv_id : string)
| FilteredRequired (arxiv_id : string)
| FilteredExcluded (arxiv_id : string) (excluded_found : list string)
| FilteredKeywords (arxiv_id : string).

(** The variables the loop updates. *)
Record loop_state := mkloop {
  body : string;
  new_papers_count : nat;
  filtered_papers_count : nat;
  no_keywords_count : nat;
  date_filtered_count : nat;
  already_processed_count : nat;
  shown_papers_count : nat;
  new_processed_papers : gset string;
  log : list log_event
}.

Definition count_already (b : bool) (st : loop_state) : loop_state :=
  if b
  then mkloop (body st) (new_papers_count st) (filtered_papers_count st)
         (no_keywords_count st) (date_filtered_count st)
         (S (already_processed_count st)) (shown_papers_count st)
         (new_processed_papers st) (log st)
  else st.

Definition add_log (evs : list log_event) (st : loop_state) : loop_state :=
  mkloop (body st) (new_papers_count st) (filtered_papers_count st)
    (no_keywords_count st) (date_filtered_count st) (already_processed_count st)
    (shown_papers_count st) (new_processed_papers st) (log st ++ evs).

Definition count_filtered (st : loop_state) : loop_state :=
  mkloop (body st) (new_papers_count st) (S (filtered_papers_count st))
    (no_keywords_count st) (date_filtered_count st) (already_processed_count st)
    (shown_papers_count st) (new_processed_papers st) (log st).

Definition count_no_keywords (st : loop_state) : loop_state :=
  mkloop (body st) (new_papers_count st) (filtered_papers_count st)
    (S (no_keywords_count st)) (date_filtered_count st) (already_processed_count st)
    (shown_papers_count st) (new_processed_papers st) (log st).

(** [new_processed_papers.add(base_arxiv_id); new_papers_count += 1] when the
    entry is not already processed. *)
Definition count_new (is_already_processed : bool) (base : string)
    (st : loop_state) : loop_state :=
  if is_already_processed then st
  else mkloop (body st) (S (new_papers_count st)) (filtered_papers_count st)
         (no_keywords_count st) (date_filtered_count st) (already_processed_count st)
         (shown_papers_count st) ({[base]} ∪ new_processed_papers st) (log st).

(** [shown_papers_count += 1] and the [body += ...] of the entry. *)
Definition show (html : string) (st : loop_state) : loop_state :=
  mkloop (body st +:+ html) (new_papers_count st) (filtered_papers_count st)
    (no_keywords_count st) (date_filtered_count st) (already_processed_count st)
    (S (shown_papers_count st)) (new_processed_papers st) (log st).

(** The list [entry_date_info] (only ever logged). *)
Definition entry_date_info (e : entry) : list string :=
  let info (name : string) (field : option string) : list string :=
    if present field
    then match parse_arxiv_date field with
         | Some date_val => [name +:+ "=" +:+ strftime_Y_m_d date_val]
         | None => []
         end
    else [] in
  info "arxiv_updated" (arxiv_updated e) ++ info "updated" (updated e)
    ++ info "published" (published e).

(** The log lines that follow [date_check = is_date_in_range(...)]. *)
Definition date_check_log (arxiv_id : string) (date_check : bool)
    (info : list string) : list log_event :=
  if date_check then []
  else if nonempty info then [DateCheckIncludedAnyway arxiv_id info]
       else [NoDateInfoIncludedAnyway arxiv_id].

Section Loop.

Variable get_paper_comments : string -> string.
Variable processed_papers : gset string.
Variables categories excluded_categories keywords : option (list string).
Variables start_window yesterday : date.

(** One iteration of [for entry in all_entries]. *)
Definition process_entry (st : loop_state) (e : entry) : loop_state :=
  let arxiv_id := entry_id e in
  let base := base_arxiv_id arxiv_id in
  let is_already_processed := bool_decide (base ∈ processed_papers) in
  let st := count_already is_already_processed st in
  let date_check := is_date_in_range e start_window yesterday in
  let st := add_log (date_check_log arxiv_id date_check (entry_date_info e)) st in
  match filter_chain categories excluded_categories keywords e with
  | RejectedRequired => add_log [FilteredRequired arxiv_id] (count_filtered st)
  | RejectedExcluded found =>
      add_log [FilteredExcluded arxiv_id found] (count_filtered st)
  | RejectedKeywords => add_log [FilteredKeywords arxiv_id] (count_no_keywords st)
  | Accepted matching_keywords =>
      show (entry_html get_paper_comments keywords e is_already_processed
              matching_keywords)
           (count_new is_already_processed base st)
  end.

Definition process_entries (st : loop_state) (entries : list entry) : loop_state :=
  foldl process_entry st entries.

End Loop.

(** ** [arxiv_alert] *)

(** What one run leaves behind: the page it writes and, when anything was
    fetched, the final loop variables and the store it saves.  A run that
    fetched nothing returns before the store is touched. *)
Inductive outcome :=
| NoPapers (html : string)
| Digest (html : string) (st : loop_state) (saved : gset string).

Section Alert.

Variable set_to_list : gset string -> list string.
Variable arxiv_api : string -> Z -> Z -> option (list entry).
Variable get_paper_comments : string -> string.

(** The static template text: the style sheet (which closes the page head)
    and the MathJax script. *)
Variables style_block mathjax_block : string.

Definition page_head (mathjax : bool) (start_window yesterday : date) : string :=
  "<!DOCTYPE html><html><head><meta charset='utf-8'>"
  +:+ "<link href='https://fonts.googleapis.com/css?family=Montserrat' rel='stylesheet'>"
  +:+ (if mathjax then mathjax_block else "")
  +:+ style_block
  +:+ "<h1><center>ArXiv Alert</center></h1>"
  +:+ ("<font color='#DDAD5C'><em>Update: from " +:+ strftime_d_b_Y start_window
       +:+ " to " +:+ strftime_d_b_Y yesterday +:+ "</em></font><br><br>").

(** The page written when no entry was fetched. *)
Definition no_papers_page (start_window yesterday : date) (batches : nat) : string :=
  page_head false start_window yesterday
  +:+ "<p><strong>No papers found</strong> for this period.</p>"
  +:+ ("<p>Tried " +:+ str_of_nat batches +:+ " batch(es) of queries.</p>")
  +:+ "</body></html>".

(** What follows the loop: the statistics or the summary line, and the end
    of the page. *)
Definition finish_page (total_papers_count : nat) (st : loop_state) : string :=
  body st
  +:+ (if (shown_papers_count st =? 0)%nat
       then "<p><em>No papers found for this period.</em></p>"
            +:+ ("<p>Statistics: Found " +:+ str_of_nat total_papers_count
                 +:+ " total papers, ")
            +:+ (str_of_nat (already_processed_count st) +:+ " already processed, ")
            +:+ (str_of_nat (no_keywords_count st) +:+ " filtered by keywords, ")
            +:+ (str_of_nat (filtered_papers_count st)
                 +:+ " filtered by excluded categories.</p>")
       else "<hr><p><em>Summary: Showing " +:+ str_of_nat (shown_papers_count st)
            +:+ " papers (" +:+ str_of_nat (new_papers_count st) +:+ " new, "
            +:+ str_of_nat (shown_papers_count st - new_papers_count st)
            +:+ " seen before)</em></p>")
  +:+ "</body></html>".

(** The loop variables before the first entry. *)
Definition initial_state (head : string) : loop_state :=
  mkloop head 0 0 0 0 0 0 ∅ [].

(** [arxiv_alert(html_name, amount_of_days, categories, keywords, authors,
    excluded_categories)], as a function of the store it loads
    ([processed_papers]) and of today's date.  The name of the output file
    plays no part in what is computed and is left out.  The three dates are
    those of Python as long as [api_start_window] is not before 0001-01-01,
    where the subtraction raises [OverflowError] instead. *)
Definition arxiv_alert (processed_papers : gset string) (today : date)
    (amount_of_days : Z)
    (categories keywords authors excluded_categories : option (list string))
  : outcome :=
  let amount_of_days := if amount_of_days <? 1 then 1 else amount_of_days in
  let yesterday := minus_days today 1 in
  let start_window := minus_days yesterday (amount_of_days - 1) in
  let api_start_window := minus_days start_window 1 in
  let fetched :=
    fetch_all arxiv_api categories keywords authors api_start_window yesterday
      (max_total_results amount_of_days) in
  match all_entries fetched with
  | [] =>
      NoPapers (no_papers_page start_window yesterday
                  (length (keyword_batches keywords)))
  | _ :: _ =>
      let st :=
        process_entries get_paper_comments processed_papers categories
          excluded_categories keywords start_window yesterday
          (initial_state (page_head true start_window yesterday))
          (all_entries fetched) in
      Digest (finish_page (length (all_entries fetched)) st) st
        (clean_old_processed_papers set_to_list
           (processed_papers ∪ new_processed_papers st))
  end.

(** The store on disk after a run that started from [processed_papers]. *)
Definition store_after (processed_papers : gset string) (o : outcome) : gset string :=
  match o with
  | NoPapers _ => processed_papers
  | Digest _ _ saved => saved
  end.

End Alert.

(** ** Vocabulary of the statements *)

(** A timestamp of the feed: the date part, the ['T'] separator and a time
    that ends in the zone marker ['Z'], as in [2024-11-20T12:34:56Z]. *)
Definition timestamp_of (d : date) (time : string) : string :=
  strftime_Y_m_d d +:+ "T" +:+ time +:+ "Z".

Definition well_formed_timestamp (s : string) : Prop :=
  exists d time,
    valid_date (year d) (month d) (day d) = true /\ s = timestamp_of d time.

(** The ways [strptime] accepts a month and a day of the month in text:
    two digits, a single digit, and for the day also a space and a digit. *)
Definition month_text (m : Z) (s : string) : Prop :=
  s = pad2 m \/ (m < 10 /\ s = String (digit_char m) "").

Definition day_text (d : Z) (s : string) : Prop :=
  s = pad2 d \/ (d < 10 /\ s = String (digit_char d) "")
  \/ (d < 10 /\ s = String " " (String (digit_char d) "")).

(** A text that names the date [d] in the form year-month-day. *)
Definition names_date (d : date) (s : string) : Prop :=
  valid_date (year d) (month d) (day d) = true
  /\ exists ms ds,
      s = pad4 (year d) +:+ "-" +:+ ms +:+ "-" +:+ ds
      /\ month_text (month d) ms /\ day_text (day d) ds.



(** [is_already_processed] for an entry. *)
Definition seen_before (processed_papers : gset string) (e : entry) : bool :=
  bool_decide (base_arxiv_id (entry_id e) ∈ processed_papers).

(** The entry passes the three checks. *)
Definition accepted (categories excluded_categories keywords : option (list string))
    (e : entry) : bool :=
  match filter_chain categories excluded_categories keywords e with
  | Accepted _ => true
  | _ => false
  end.

(** What the loop appends to the page for an entry: its block when it is
    accepted, nothing otherwise. *)
Definition block_of (get_paper_comments : string -> string)
    (processed_papers : gset string)
    (categories excluded_categories keywords : option (list string))
    (e : entry) : string :=
  match filter_chain categories excluded_categories keywords e with
  | Accepted matching_keywords =>
      entry_html get_paper_comments keywords e (seen_before processed_papers e)
        matching_keywords
  | _ => ""
  end.

(** Concatenation of the pieces appended to the page, in order. *)
Definition concat_str (l : list string) : string := foldr String.append "" l.

(** The entries of a run that count as new: accepted and not seen before. *)
Definition counts_as_new (processed_papers : gset string)
    (categories excluded_categories keywords : option (list string))
    (e : entry) : bool :=
  accepted categories excluded_categories keywords e
  && negb (seen_before processed_papers e).

(** The three checks of the filter chain, each on its own: the condition
    under which the loop body reaches the corresponding [continue]. *)
Definition fails_required (categories : option (list string)) (e : entry) : bool :=
  nonempty (given categories)
  && negb (any_in (PyStr.lower <$> given categories) (PyStr.lower <$> tags e)).

Definition fails_excluded (excluded_categories : option (list string))
    (e : entry) : bool :=
  nonempty (given excluded_categories)
  && any_in (PyStr.lower <$> given excluded_categories) (PyStr.lower <$> tags e).

Definition fails_keywords (keywords : option (list string)) (e : entry) : bool :=
  match keywords with
  | Some kws => negb (nonempty (find_matching_keywords (title e) (summary e) kws))
  | None => false
  end.

(** Projections of the outcome of a run. *)
Definition final_state (o : outcome) : option loop_state :=
  match o with
  | Digest _ st _ => Some st
  | NoPapers _ => None
  end.

Definition page (o : outcome) : string :=
  match o with
  | Digest html _ _ => html
  | NoPapers html => html
  end.

(** ** Sample data for the examples *)

(** An upstream that answers the first request with [es] and has nothing
    beyond it. *)
Definition one_page (es : list entry) : string -> Z -> Z -> option (list entry) :=
  fun _ start _ => if start =? 0 then Some es else Some [].

Definition no_comments : string -> string := fun _ => "No comments".

Definition sample_entry (ident title summary : string) (tags : list string) : entry :=
  mkentry ("http://arxiv.org/abs/" +:+ ident) title summary tags [] None
    None None None None.

Definition flares_v1 : entry :=
  sample_entry "2411.00001v1" "Stellar flares" "We study flares." ["astro-ph.SR"].

Definition lensing_v1 : entry :=
  sample_entry "2411.00002v1" "Weak lensing" "We measure shear." ["astro-ph.CO"; "gr-qc"].

Definition lensing_v2 : entry :=
  sample_entry "2411.00002v2" "Weak lensing" "We measure shear." ["astro-ph.CO"; "gr-qc"].

(** An entry whose source-specific date does not parse, whose generic
    [updated] date lies outside the window used below and whose [published]
    date lies inside it. *)
Definition dated_entry : entry :=
  mkentry "http://arxiv.org/abs/2411.00003v1" "Dust in discs" "We model dust."
    ["astro-ph.GA"] [] None
    (Some "unknown") (Some "2024-10-01T08:00:00Z") (Some "2024-11-20T08:00:00Z") None.

(** A page that lets the loop go on: the request succeeded and returned at
    least [max_results_per_call] entries. *)
Definition full_page (p : option (list entry)) : bool :=
  match p with
  | Some es => bool_decide (max_results_per_call <= Z.of_nat (length es))
  | None => false
  end.

(** The variables of the batch loop after one more request at [start]. *)
Definition after_request (start : Z) (p : option (list entry)) (st : batch_state)
  : batch_state :=
  mkbatch (add_page (so_far st) (given p)) (S (page_num st))
    (total_fetched st + length (given p))%nat (requests st ++ [start]).

(** The number of pages of size [max_results_per_call] that fit under the
    cap: its ceiling quotient (none for a cap that is not positive). *)
Definition max_pages (cap : Z) : nat :=
  Z.to_nat ((cap + (max_results_per_call - 1)) / max_results_per_call).

(** Entries numbered [0], [1], ... with distinct identifiers, and an upstream
    that serves 1200 of them in full pages. *)
Definition numbered_entry (n : nat) : entry :=
  sample_entry ("2411." +:+ str_of_nat n +:+ "v1") "" "" [].

Definition big_upstream : string -> Z -> Z -> option (list entry) :=
  fun _ start _ =>
    if start <? 1200 then Some (numbered_entry <$> seq (Z.to_nat start) 200)
    else Some [].

(** The list [all_entries] a run of [arxiv_alert] ends up with: it depends
    on the upstream and on the arguments of the run, not on the store. *)
Definition fetched_entries (arxiv_api : string -> Z -> Z -> option (list entry))
    (today : date) (amount_of_days : Z)
    (categories keywords authors : option (list string)) : list entry :=
  let amount_of_days := if amount_of_days <? 1 then 1 else amount_of_days in
  let yesterday := minus_days today 1 in
  let start_window := minus_days yesterday (amount_of_days - 1) in
  let api_start_window := minus_days start_window 1 in
  all_entries
    (fetch_all arxiv_api categories keywords authors api_start_window yesterday
       (max_total_results amount_of_days)).

(** The base identifiers a run adds: those of its new entries. *)
Definition new_ids (processed_papers : gset string)
    (categories excluded_categories keywords : option (list string))
    (es : list entry) : gset string :=
  list_to_set ((fun e => base_arxiv_id (entry_id e))
                 <$> filter (counts_as_new processed_papers categories
                               excluded_categories keywords) es).

(** ** The store on disk and the daily task *)

(** The file [processed_papers.json] as [load_processed_papers] finds it:
    - [NoFile]: there is no such file ([open] raises [FileNotFoundError]);
    - [NotJson]: the file is text that is not valid JSON, the empty file
      included ([json.load] raises [JSONDecodeError]);
    - [JsonStrings ids]: the JSON array of the strings [ids], which is what
      [save_processed_papers] writes;
    - [Unloadable]: any content on which the call raises an exception it
      does not catch: bytes that are not text in the encoding of [open]
      ([UnicodeDecodeError]), the JSON values [null], [true], [false] and
      numbers, and arrays that hold an array or an object ([TypeError] from
      [set]), or a file that cannot be opened for another reason.
    JSON of other shapes (a string, an object, an array with numbers in it)
    loads as a set that is not a set of identifiers written by this program,
    and has no constructor here. *)
Inductive store_file :=
| NoFile
| NotJson
| JsonStrings (ids : list string)
| Unloadable.

(** [load_processed_papers()]: the two exceptions it catches give the empty
    set; [None] stands for an exception that leaves the function. *)
Definition load_processed_papers (file : store_file) : option (gset string) :=
  match file with
  | JsonStrings ids => Some (list_to_set ids)
  | NoFile | NotJson => Some ∅
  | Unloadable => None
  end.

(** [save_processed_papers(processed_papers)]: [json.dump(list(...))]. *)
Definition save_processed_papers (set_to_list : gset string -> list string)
    (processed_papers : gset string) : store_file :=
  JsonStrings (set_to_list processed_papers).


Definition keywords_astroph : list string :=
  [ "ALMA"; "ALMACAL";
    "MUSE"; "MUSE-ALMA";
    "JWST"; "James Webb Space Telescope";
    "4MOST"; "DESI"; "Euclid"; "SDSS";
    "galaxy evolution"; "galaxy formation"; "galactic chemical evolution";
    "galaxy chemical evolution";
    "galactic outlflows"; "galactic outlflow"; "outflows"; "outflow";
    "dust"; "dust evolution"; "stellar mass function"; "quiescent galaxies";
    "atomic hydrogen";
    "baryon cycle"; "baryon budget"; "metal budget"; "baryon density";
    "cosmic abundance"; "cosmic evolution"; "cosmic gas";
    "atomic gas"; "molecular gas"; "interstellar dust"; "ISM"; "kinematics";
    "quasar absorption lines"; "QSO absorption lines"; "QSO absorber";
    "quasar absorber"; "MgII absorber"; "MgII absorbers";
    "high z"; "high redshift";
    "feedback"; "stellar feedback";
    "AGN"; "AGN feedback";
    "active galactic nuclei"; "QSO"; "quasar";
    "BAL QSO"; "broad absorption line quasar"; "broad absorption line QSO";
    "AGN variability"; "active galactic nuclei variability"; "blazar variability";
    "time-domain"; "time domain";
    "CGM"; "circumgalactic medium"; "IGM"; "intergalactic medium"; "halo"; "haloes";
    "damped lyman alpha system"; "DLA";
    "lyman limit system"; "LLS" ].




Section Daily.

Variable set_to_list : gset string -> list string.
Variable arxiv_api : string -> Z -> Z -> option (list entry).
Variable get_paper_comments : string -> string.
Variables style_block mathjax_block : string.

(** [date.weekday()]: 0 for Monday up to 6 for Sunday. *)
Variable weekday : date -> Z.

(** One call of [arxiv_alert] with its file accesses: the store is loaded
    at the start and, unless the run returns early for lack of entries,
    saved at the end.  [None]: loading raised, and the call ended there,
    before any request and with nothing written. *)
Definition arxiv_alert_on_file (file : store_file) (today : date)
    (amount_of_days : Z)
    (categories keywords authors excluded_categories : option (list string))
  : option (outcome * store_file) :=
  match load_processed_papers file with
  | None => None
  | Some processed_papers =>
      let o :=
        arxiv_alert set_to_list arxiv_api get_paper_comments style_block
          mathjax_block processed_papers today amount_of_days categories keywords
          authors excluded_categories in
      match o with
      | NoPapers _ => Some (o, file)
      | Digest _ _ saved => Some (o, save_processed_papers set_to_list saved)
      end
  end.


End Daily.

(** ** More vocabulary *)

(** The places an annotation of [find_matching_keywords] can name. *)
Definition found_places : list string := ["title"; "abstract"; "title, abstract"].

(** The keywords of a batch ([None] stands for no keyword at all). *)
Definition batch_keywords (batch : option (list string)) : list string := given batch.


(** The invariant of the fetch stage: no two kept entries share an
    identifier, and [all_entry_ids] is the set of the identifiers kept. *)
Definition fetched_wf (acc : fetched) : Prop :=
  NoDup (entry_id <$> all_entries acc)
  /\ all_entry_ids acc = list_to_set (entry_id <$> all_entries acc).

(** The entry was in the answer to some request. *)
Definition served (arxiv_api : string -> Z -> Z -> option (list entry)) (e : entry)
  : Prop :=
  exists search_query start max_results page,
    arxiv_api search_query start max_results = Some page /\ e ∈ page.

(** What the loop decides without looking at the store: how many entries it
    shows, how many it rejects by category and by keywords, and its log. *)
Definition filter_view (st : loop_state) : nat * nat * nat * list log_event :=
  (shown_papers_count st, filtered_papers_count st, no_keywords_count st, log st).

(** The dates [arxiv_alert] derives from today's date and the number of
    days: the last day of the window and its first day. *)
Definition window_end (today : date) : date := minus_days today 1.

Definition window_start (today : date) (amount_of_days : Z) : date :=
  minus_days (window_end today)
    ((if amount_of_days <? 1 then 1 else amount_of_days) - 1).

(** The base identifiers a run recorded as new ([new_processed_papers] at
    the end of the loop); a run that fetched nothing records none. *)
Definition added (o : outcome) : gset string :=
  match o with
  | Digest _ st _ => new_processed_papers st
  | NoPapers _ => ∅
  end.



(** A month and a day of the month that exist in the calendar. *)
Definition calendar_day (d : date) : bool :=
  (1 <=? month d) && (month d <=? 12)
  && (1 <=? day d) && (day d <=? days_in_month (year d) (month d)).



(** * Properties *)

(** ** Strings *)

#[local] Set Warnings "-clear-no-such-hyp".

Local Arguments String.append !_ _ / : simpl nomatch.
Local Arguments digit_value : simpl never.
Local Arguments is_digit : simpl never.
Local Arguments digit_range : simpl never.
Local Arguments is_char : simpl never.
Local Arguments Z.div : simpl never.
Local Arguments Z.modulo : simpl never.
Local Arguments Z.mul : simpl never.
Local Arguments Z.add : simpl never.
Local Arguments Z.of_nat : simpl never.

Section StringFacts.
Import PyStr.

Lemma app_assoc_str (a b c : string) : (a +:+ b) +:+ c = a +:+ (b +:+ c).
Proof. induction a as [|x a IH]; simpl; [done | by rewrite IH]. Qed.

Lemma app_cons (x : ascii) (a b : string) : String x a +:+ b = String x (a +:+ b).
Proof. reflexivity. Qed.

Lemma app_empty_l (a : string) : "" +:+ a = a.
Proof. reflexivity. Qed.

Lemma app_empty_r (a : string) : a +:+ "" = a.
Proof. induction a as [|x a IH]; simpl; [done | by rewrite IH]. Qed.

Lemma startswith_app (p r : string) : startswith p (p +:+ r) = true.
Proof.
  induction p as [|x p IH]; simpl; [done |].
  by rewrite Ascii.eqb_refl, IH.
Qed.

Lemma startswith_spec (p s : string) :
  startswith p s = true <-> exists r, s = p +:+ r.
Proof.
  split.
  - revert s. induction p as [|x p IH]; intros s H.
    + by exists s.
    + destruct s as [|y s]; simpl in H; [done |].
      apply andb_true_iff in H as [Hxy Hp].
      apply Ascii.eqb_eq in Hxy as ->.
      destruct (IH _ Hp) as [r ->]. by exists r.
  - intros [r ->]. apply startswith_app.
Qed.

(** The substring test decides the existence of an occurrence. *)
Lemma contains_spec (sub s : string) :
  contains sub s = true <-> exists pre post, s = pre +:+ sub +:+ post.
Proof.
  split.
  - induction s as [|y s IH]; simpl; intros H.
    + apply startswith_spec in H as [r Hr]. by exists "", r.
    + apply orb_true_iff in H as [H | H].
      * apply startswith_spec in H as [r Hr]. by exists "", r.
      * destruct (IH H) as (pre & post & ->). by exists (String y pre), post.
  - intros (pre & post & ->).
    induction pre as [|y pre IH]; simpl.
    + destruct (sub +:+ post) eqn:E.
      * destruct sub; [done | discriminate].
      * simpl. rewrite <- E, startswith_app. done.
    + rewrite IH. apply orb_true_r.
Qed.

Lemma contains_refl (s : string) : contains s s = true.
Proof. apply contains_spec. exists "", "". by rewrite app_empty_r. Qed.

Lemma contains_trans (a b c : string) :
  contains a b = true -> contains b c = true -> contains a c = true.
Proof.
  rewrite !contains_spec. intros (p1 & q1 & ->) (p2 & q2 & ->).
  exists (p2 +:+ p1), (q1 +:+ q2). by rewrite !app_assoc_str.
Qed.

Lemma contains_app_l (a b c : string) :
  contains a b = true -> contains a (b +:+ c) = true.
Proof.
  rewrite !contains_spec. intros (p & q & ->).
  exists p, (q +:+ c). by rewrite !app_assoc_str.
Qed.

Lemma contains_app_r (a b c : string) :
  contains a c = true -> contains a (b +:+ c) = true.
Proof.
  rewrite !contains_spec. intros (p & q & ->).
  exists (b +:+ p), q. by rewrite !app_assoc_str.
Qed.

Lemma lstrip_repeat (c : ascii) (n : nat) (s : string) :
  starts_with_char c s = false -> lstrip c (repeat_char c n +:+ s) = s.
Proof.
  intros H. induction n as [|n IH]; simpl.
  - destruct s as [|a s]; simpl in *; [done | by rewrite H].
  - by rewrite Ascii.eqb_refl.
Qed.

Lemma rstrip_repeat_only (c : ascii) (n : nat) : rstrip c (repeat_char c n) = "".
Proof.
  induction n as [|n IH]; simpl; [done |].
  by rewrite IH, Ascii.eqb_refl.
Qed.

Lemma rstrip_cons (c a : ascii) (s : string) :
  rstrip c (String a s) =
  match rstrip c s with
  | EmptyString => if Ascii.eqb a c then EmptyString else String a EmptyString
  | String b r => String a (String b r)
  end.
Proof. reflexivity. Qed.

Lemma rstrip_repeat (c : ascii) (n : nat) (s : string) :
  ends_with_char c s = false -> rstrip c (s +:+ repeat_char c n) = s.
Proof.
  induction s as [|a s IH]; intros H.
  - simpl. apply rstrip_repeat_only.
  - change (String a s +:+ repeat_char c n)
      with (String a (s +:+ repeat_char c n)).
    rewrite rstrip_cons.
    destruct s as [|b s].
    + simpl in H. simpl. rewrite rstrip_repeat_only. by rewrite H.
    + rewrite (IH H). done.
Qed.

(** [strip] removes exactly the quotes that surround a core which neither
    starts nor ends with one. *)
Lemma strip_quoted (c : ascii) (n m : nat) (core : string) :
  starts_with_char c core = false -> ends_with_char c core = false ->
  strip c (repeat_char c n +:+ core +:+ repeat_char c m) = core.
Proof.
  intros Hs He. unfold strip.
  destruct core as [|a core].
  - simpl.
    assert (Hl : forall k, lstrip c (repeat_char c k) = "").
    { induction k as [|k IH]; simpl; [done | by rewrite Ascii.eqb_refl]. }
    replace (repeat_char c n +:+ repeat_char c m) with (repeat_char c (n + m)).
    + by rewrite Hl.
    + induction n as [|n IH]; simpl; [done | by rewrite IH].
  - rewrite lstrip_repeat.
    + by apply rstrip_repeat.
    + simpl in *. done.
Qed.

Lemma split_go_first (c : ascii) (cur s : string) :
  first (split_go (String c "") 0 cur s) = cur +:+ before_char c s.
Proof.
  revert cur. induction s as [|a s IH]; intros cur; simpl.
  - by rewrite app_empty_r.
  - rewrite (Ascii.eqb_sym c a). destruct (Ascii.eqb a c); simpl.
    + by rewrite app_empty_r.
    + rewrite IH, app_assoc_str. done.
Qed.

(** [s.split(c)[0]] is what precedes the first [c]. *)
Lemma split_char_first (c : ascii) (s : string) :
  first (split (String c "") s) = before_char c s.
Proof. unfold split. by rewrite split_go_first. Qed.

Lemma before_char_app (c : ascii) (b r : string) :
  has_char c b = false -> before_char c (b +:+ String c r) = b.
Proof.
  induction b as [|a b IH]; simpl; intros H.
  - by rewrite Ascii.eqb_refl.
  - apply orb_false_iff in H as [-> H]. by rewrite IH.
Qed.

Lemma before_char_absent (c : ascii) (b : string) :
  has_char c b = false -> before_char c b = b.
Proof.
  induction b as [|a b IH]; simpl; intros H; [done |].
  apply orb_false_iff in H as [-> H]. by rewrite IH.
Qed.

Lemma before_char_present (c : ascii) (b r : string) :
  has_char c b = true -> before_char c (b +:+ r) = before_char c b.
Proof.
  induction b as [|a b IH]; simpl; intros H; [done |].
  destruct (Ascii.eqb a c); [done |]. simpl in H. by rewrite IH.
Qed.

Lemma has_char_app (c : ascii) (a b : string) :
  has_char c (a +:+ b) = has_char c a || has_char c b.
Proof.
  induction a as [|x a IH]; simpl; [done |].
  by rewrite IH, orb_assoc.
Qed.

End StringFacts.

(** ** Keyword matching *)

Section KeywordFacts.
Import PyStr.

Lemma foldl_app_flat {A B} (f : B -> list A) (init : list A) (l : list B) :
  foldl (fun acc x => acc ++ f x) init l = init ++ concat (f <$> l).
Proof.
  revert init. induction l as [|x l IH]; intros init; simpl.
  - by rewrite app_nil_r.
  - by rewrite IH, <- app_assoc.
Qed.

Lemma find_matching_keywords_cons (title abstract keyword : string)
    (keywords : list string) :
  find_matching_keywords title abstract (keyword :: keywords) =
  match_keyword (lower title) (lower abstract) keyword
    ++ find_matching_keywords title abstract keywords.
Proof.
  unfold find_matching_keywords. by rewrite !foldl_app_flat.
Qed.

(** C10. A keyword is compared in its cleaned form (surrounding double
    quotes removed, lowercased) against the lowercased title and abstract,
    while the annotation it produces carries the keyword as configured,
    quotes included, followed by the places where it was found. *)
Theorem find_matching_keywords_quoted
    (title abstract core : string) (n m : nat) (keywords : list string) :
  starts_with_char dquote core = false ->
  ends_with_char dquote core = false ->
  let keyword := repeat_char dquote n +:+ core +:+ repeat_char dquote m in
  let in_title := contains (lower core) (lower title) in
  let in_abstract := contains (lower core) (lower abstract) in
  find_matching_keywords title abstract (keyword :: keywords) =
    (if in_title || in_abstract
     then [keyword +:+ " ("
             +:+ join ", " ((if in_title then ["title"] else [])
                            ++ (if in_abstract then ["abstract"] else []))
             +:+ ")"]
     else [])
    ++ find_matching_keywords title abstract keywords
  /\ (in_title = true <-> exists pre post, lower title = pre +:+ lower core +:+ post)
  /\ (in_abstract = true <->
      exists pre post, lower abstract = pre +:+ lower core +:+ post).
Proof.
  intros Hs He keyword in_title in_abstract. split.
  - rewrite find_matching_keywords_cons. f_equal.
    unfold match_keyword, found_in. subst keyword.
    by rewrite (strip_quoted _ _ _ _ Hs He).
  - split; apply contains_spec.
Qed.

(** The quoted keyword ["ALMA"] against an abstract that mentions alma. *)
Lemma find_matching_keywords_quoted_witness :
  find_matching_keywords "Observations of nearby galaxies"
    "We use archival alma data" [q +:+ "ALMA" +:+ q]
  = [q +:+ "ALMA" +:+ q +:+ " (abstract)"].
Proof.
  exact (proj1 (find_matching_keywords_quoted "Observations of nearby galaxies"
                  "We use archival alma data" "ALMA" 1 1 [] eq_refl eq_refl)).
Defined.

End KeywordFacts.

(** ** Query construction *)

(** C4. With only categories given, the query is the parenthesised
    OR-group of one [cat:] clause per category and nothing else: it is the
    only element of [query_parts]. *)
Theorem build_arxiv_query_categories_only (categories : list string) :
  categories <> [] ->
  query_parts (Some categories) None None None None
    = ["(" +:+ PyStr.join " OR " ((fun cat => "cat:" +:+ cat) <$> categories) +:+ ")"]
  /\ length ((fun cat => "cat:" +:+ cat) <$> categories) = length categories
  /\ build_arxiv_query (Some categories) None None None None
    = "(" +:+ PyStr.join " OR " ((fun cat => "cat:" +:+ cat) <$> categories) +:+ ")".
Proof.
  intros Hne. destruct categories as [|c cats]; [done |].
  split; [reflexivity |]. split; [by rewrite length_fmap | reflexivity].
Qed.

Lemma build_arxiv_query_categories_only_witness :
  build_arxiv_query (Some ["astro-ph.ga"; "astro-ph.co"]) None None None None
  = "(cat:astro-ph.ga OR cat:astro-ph.co)".
Proof.
  exact (proj2 (proj2 (build_arxiv_query_categories_only
                         ["astro-ph.ga"; "astro-ph.co"] ltac:(discriminate)))).
Defined.

(** ** Date parsing *)


Lemma digit_char_small (n : Z) :
  exists k : nat, (k < 10)%nat /\ digit_char n = ascii_of_nat (48 + k)
                  /\ n mod 10 = Z.of_nat k.
Proof.
  exists (Z.to_nat (n mod 10)). unfold digit_char.
  pose proof (Z.mod_pos_bound n 10 ltac:(lia)). split; [lia |]. split; [done | lia].
Qed.

Lemma digit_char_mod (n k : Z) : n mod 10 = k mod 10 -> digit_char n = digit_char k.
Proof. unfold digit_char. by intros ->. Qed.

Local Opaque digit_char.

Section DateFacts.
Import PyStr.

Ltac digit_cases k :=
  do 10 (destruct k as [|k]; [try done; try lia |]); try lia.

Lemma digit_char_is_digit (n : Z) :
  is_digit (digit_char n) = true /\ digit_value (digit_char n) = n mod 10
  /\ has_char "T" (String (digit_char n) "") = false.
Proof.
  destruct (digit_char_small n) as (k & Hk & -> & ->).
  digit_cases k.
Qed.

Lemma char_in_digit (lo hi : nat) (c : ascii) :
  (hi <= 9)%nat -> digit_range lo hi c = true ->
  exists k : nat, (lo <= k <= hi)%nat /\ c = digit_char (Z.of_nat k)
                  /\ digit_value c = Z.of_nat k.
Proof.
  intros Hhi H. unfold digit_range, char_in in H.
  apply andb_true_iff in H as [H1 H2].
  apply Nat.leb_le in H1, H2.
  exists (nat_of_ascii c - 48)%nat. split; [lia |].
  assert (Hc : c = ascii_of_nat (48 + (nat_of_ascii c - 48))).
  { replace (48 + (nat_of_ascii c - 48))%nat with (nat_of_ascii c) by lia.
    by rewrite ascii_nat_embedding. }
  remember (nat_of_ascii c - 48)%nat as k eqn:Ek.
  assert (k <= 9)%nat by lia. rewrite Hc. clear -H.
  digit_cases k.
Qed.

Lemma is_digit_inv (c : ascii) :
  is_digit c = true ->
  exists k : nat, (k <= 9)%nat /\ c = digit_char (Z.of_nat k)
                  /\ digit_value c = Z.of_nat k.
Proof.
  intros H. destruct (char_in_digit 0 9 c) as (k & ? & ? & ?); [lia | done |].
  exists k. split; [lia | done].
Qed.

Lemma is_char_inv (x c : ascii) : is_char x c = true -> c = x.
Proof. unfold is_char. apply Ascii.eqb_eq. Qed.

(** *** Well-formed text parses to the date it names *)

Lemma match_Y_pad4 (y : Z) (r : string) :
  0 <= y <= 9999 -> match_Y (pad4 y +:+ r) = Some (y, r).
Proof.
  intros Hy. unfold pad4, pad2. rewrite !app_cons, app_empty_l. unfold match_Y.
  destruct (digit_char_is_digit (y / 1000)) as (-> & -> & _).
  destruct (digit_char_is_digit (y / 100)) as (-> & -> & _).
  destruct (digit_char_is_digit (y / 10)) as (-> & -> & _).
  destruct (digit_char_is_digit y) as (-> & -> & _).
  cbn [andb]. do 2 f_equal. Z.to_euclidean_division_equations. lia.
Qed.

Lemma match_m_pad2 (m : Z) (r : string) :
  1 <= m <= 12 -> match_m (pad2 m +:+ r) = Some (m, r).
Proof.
  intros Hm. replace m with (Z.of_nat (Z.to_nat m)) by lia.
  remember (Z.to_nat m) as k eqn:Ek. assert (1 <= k <= 12)%nat by lia. clear -H.
  do 13 (destruct k as [|k]; [try lia; try reflexivity |]). lia.
Qed.

Lemma match_d_pad2 (d : Z) :
  1 <= d <= 31 -> match_d (pad2 d) = Some (d, "").
Proof.
  intros Hd. replace d with (Z.of_nat (Z.to_nat d)) by lia.
  remember (Z.to_nat d) as k eqn:Ek. assert (1 <= k <= 31)%nat by lia. clear -H.
  do 32 (destruct k as [|k]; [try lia; try reflexivity |]). lia.
Qed.

Lemma days_in_month_le_31 (y m : Z) : days_in_month y m <= 31.
Proof. unfold days_in_month. repeat case_match; lia. Qed.

Lemma valid_date_bounds (y m d : Z) :
  valid_date y m d = true ->
  1 <= y <= 9999 /\ 1 <= m <= 12 /\ 1 <= d <= days_in_month y m.
Proof.
  unfold valid_date. rewrite !andb_true_iff, !Z.leb_le. lia.
Qed.

Lemma match_dash_cons (r : string) : match_dash (String "-" r) = Some r.
Proof. reflexivity. Qed.

Lemma strptime_strftime (d : date) :
  valid_date (year d) (month d) (day d) = true ->
  strptime_Y_m_d (strftime_Y_m_d d) = Some d.
Proof.
  intros Hv. destruct d as [y m dd]. cbn [year month day] in *.
  pose proof (valid_date_bounds _ _ _ Hv) as (Hy & Hm & Hd).
  pose proof (days_in_month_le_31 y m).
  unfold strptime_Y_m_d, strftime_Y_m_d. cbn [year month day].
  rewrite match_Y_pad4 by lia. cbn [mbind option_bind].
  rewrite app_cons, app_empty_l, match_dash_cons. cbn [mbind option_bind].
  rewrite match_m_pad2 by lia. cbn [mbind option_bind].
  rewrite app_cons, app_empty_l, match_dash_cons. cbn [mbind option_bind].
  rewrite match_d_pad2 by lia. cbn [mbind option_bind]. by rewrite Hv.
Qed.

Lemma strftime_no_T (d : date) : has_char "T" (strftime_Y_m_d d) = false.
Proof.
  unfold strftime_Y_m_d, pad4, pad2. simpl.
  repeat match goal with
         | |- context [Ascii.eqb (digit_char ?n) _] =>
             let H := fresh in
             destruct (digit_char_is_digit n) as (_ & _ & H);
             simpl in H; apply orb_false_iff in H as [-> _]
         end.
  reflexivity.
Qed.

(** Only what precedes the first ['T'] is looked at. *)
Lemma parse_arxiv_date_date_part (s : string) :
  parse_arxiv_date (Some s) = strptime_Y_m_d (before_char "T" s).
Proof. unfold parse_arxiv_date. by rewrite split_char_first. Qed.

End DateFacts.

Section ParseFacts.
Import PyStr.

Lemma match_Y_sound (s r : string) (y : Z) :
  match_Y s = Some (y, r) -> s = pad4 y +:+ r /\ 0 <= y <= 9999.
Proof.
  unfold match_Y.
  destruct s as [|a [|b [|c [|d s]]]]; try discriminate.
  destruct (is_digit a) eqn:Ha; [|discriminate].
  destruct (is_digit b) eqn:Hb; [|discriminate].
  destruct (is_digit c) eqn:Hc; [|discriminate].
  destruct (is_digit d) eqn:Hd; [|discriminate].
  simpl. intros [= <- <-].
  destruct (is_digit_inv _ Ha) as (ka & ? & -> & ->).
  destruct (is_digit_inv _ Hb) as (kb & ? & -> & ->).
  destruct (is_digit_inv _ Hc) as (kc & ? & -> & ->).
  destruct (is_digit_inv _ Hd) as (kd & ? & -> & ->).
  split; [|lia].
  unfold pad4, pad2. simpl.
  f_equal; [apply digit_char_mod | f_equal; [apply digit_char_mod
    | f_equal; [apply digit_char_mod | f_equal; apply digit_char_mod]]];
    Z.to_euclidean_division_equations; lia.
Qed.

Lemma match_dash_sound (s r : string) :
  match_dash s = Some r <-> s = String "-" r.
Proof.
  unfold match_dash. destruct s as [|c s]; [done |].
  destruct (is_char "-" c) eqn:Hc.
  - apply is_char_inv in Hc as ->. split; congruence.
  - split; [done |]. intros [= -> ->]. done.
Qed.

Ltac nat_cases k tac :=
  do 10 (destruct k as [|k]; [first [lia | tac] |]); lia.

Lemma two_chars_inv (p1 p2 : ascii -> bool) (s r : string) (v : Z) :
  two_chars p1 p2 s = Some (v, r) ->
  exists a b, s = String a (String b r) /\ p1 a = true /\ p2 b = true
              /\ v = 10 * digit_value a + digit_value b.
Proof.
  unfold two_chars. destruct s as [|a [|b s]]; try discriminate.
  destruct (p1 a) eqn:H1; [|discriminate].
  destruct (p2 b) eqn:H2; [|discriminate].
  simpl. intros [= <- <-]. by exists a, b.
Qed.

Lemma one_char_inv (p : ascii -> bool) (s r : string) (v : Z) :
  one_char p s = Some (v, r) ->
  exists a, s = String a r /\ p a = true /\ v = digit_value a.
Proof.
  unfold one_char. destruct s as [|a s]; [discriminate |].
  destruct (p a) eqn:H1; [|discriminate].
  intros [= <- <-]. by exists a.
Qed.

Lemma first_match_inv alts (s r : string) (v : Z) :
  first_match alts s = Some (v, r) -> exists alt, alt ∈ alts /\ alt s = Some (v, r).
Proof.
  induction alts as [|alt alts IH]; simpl; [done |].
  destruct (alt s) as [x|] eqn:E.
  - intros [= ->]. exists alt. split; [left | done].
  - intros H. destruct (IH H) as (alt' & ? & ?). exists alt'. split; [by right | done].
Qed.

Ltac solve_digit_alt :=
  repeat match goal with
    | H : is_char _ _ = true |- _ => apply is_char_inv in H; subst
    | H : digit_range ?lo ?hi ?c = true |- _ =>
        let k := fresh "k" in
        destruct (char_in_digit lo hi c ltac:(lia) H) as (k & ? & ? & ?);
        clear H; subst c
    | H : is_digit ?c = true |- _ =>
        let k := fresh "k" in
        destruct (is_digit_inv c H) as (k & ? & ? & ?); clear H; subst c
    end.

Lemma match_m_sound (s r : string) (m : Z) :
  match_m s = Some (m, r) ->
  exists ms, s = ms +:+ r /\ month_text m ms /\ 1 <= m <= 12.
Proof.
  intros H. apply first_match_inv in H as (alt & Hin & H).
  rewrite !elem_of_cons in Hin. rewrite elem_of_nil in Hin.
  destruct Hin as [-> | [-> | [-> | []]]].
  - apply two_chars_inv in H as (a & b & -> & Ha & Hb & ->). solve_digit_alt.
    exists (String "1" (String (digit_char (Z.of_nat k)) "")).
    split; [done |]. nat_cases k ltac:(split; [by left | done]).
  - apply two_chars_inv in H as (a & b & -> & Ha & Hb & ->). solve_digit_alt.
    exists (String "0" (String (digit_char (Z.of_nat k)) "")).
    split; [done |]. nat_cases k ltac:(split; [by left | done]).
  - apply one_char_inv in H as (a & -> & Ha & ->). solve_digit_alt.
    exists (String (digit_char (Z.of_nat k)) "").
    split; [done |]. nat_cases k ltac:(split; [by right | done]).
Qed.

Lemma match_d_sound (s r : string) (d : Z) :
  match_d s = Some (d, r) ->
  exists ds, s = ds +:+ r /\ day_text d ds /\ 1 <= d <= 31.
Proof.
  intros H. apply first_match_inv in H as (alt & Hin & H).
  rewrite !elem_of_cons in Hin. rewrite elem_of_nil in Hin.
  destruct Hin as [-> | [-> | [-> | [-> | [-> | []]]]]].
  - apply two_chars_inv in H as (a & b & -> & Ha & Hb & ->). solve_digit_alt.
    exists (String "3" (String (digit_char (Z.of_nat k)) "")).
    split; [done |]. nat_cases k ltac:(split; [by left | done]).
  - apply two_chars_inv in H as (a & b & -> & Ha & Hb & ->). solve_digit_alt.
    exists (String (digit_char (Z.of_nat k)) (String (digit_char (Z.of_nat k0)) "")).
    split; [done |]. nat_cases k ltac:(nat_cases k0 ltac:(split; [by left | done])).
  - apply two_chars_inv in H as (a & b & -> & Ha & Hb & ->). solve_digit_alt.
    exists (String "0" (String (digit_char (Z.of_nat k)) "")).
    split; [done |]. nat_cases k ltac:(split; [by left | done]).
  - apply one_char_inv in H as (a & -> & Ha & ->). solve_digit_alt.
    exists (String (digit_char (Z.of_nat k)) "").
    split; [done |]. nat_cases k ltac:(split; [by right; left | done]).
  - apply two_chars_inv in H as (a & b & -> & Ha & Hb & ->). solve_digit_alt.
    exists (String " " (String (digit_char (Z.of_nat k)) "")).
    split; [done |]. nat_cases k ltac:(split; [by right; right | done]).
Qed.

Lemma strptime_sound (s : string) (d : date) :
  strptime_Y_m_d s = Some d -> names_date d s.
Proof.
  unfold strptime_Y_m_d. intros H.
  destruct (match_Y s) as [[y r1]|] eqn:HY; [|done]. simpl in H.
  destruct (match_dash r1) as [r2|] eqn:H1; [|done]. simpl in H.
  destruct (match_m r2) as [[m r3]|] eqn:Hm; [|done]. simpl in H.
  destruct (match_dash r3) as [r4|] eqn:H2; [|done]. simpl in H.
  destruct (match_d r4) as [[dd r5]|] eqn:Hd; [|done]. simpl in H.
  destruct r5; [|done].
  destruct (valid_date y m dd) eqn:Hv; [|done].
  injection H as <-.
  apply match_Y_sound in HY as [-> _].
  apply match_dash_sound in H1 as ->.
  apply match_m_sound in Hm as (ms & -> & Hms & _).
  apply match_dash_sound in H2 as ->.
  apply match_d_sound in Hd as (ds & -> & Hds & _).
  split; [done |]. exists ms, ds. simpl. split; [|done].
  rewrite app_empty_r. by f_equal.
Qed.

End ParseFacts.

Section ParseSpec.
Import PyStr.

Lemma match_m_single (m : Z) (r : string) :
  1 <= m < 10 -> match_m (String (digit_char m) (String "-" r)) = Some (m, String "-" r).
Proof.
  intros Hm. replace m with (Z.of_nat (Z.to_nat m)) by lia.
  remember (Z.to_nat m) as k eqn:Ek. assert (1 <= k < 10)%nat by lia. clear -H.
  do 10 (destruct k as [|k]; [first [lia | reflexivity] |]). lia.
Qed.

Lemma match_d_single (d : Z) :
  1 <= d < 10 ->
  match_d (String (digit_char d) "") = Some (d, "")
  /\ match_d (String " " (String (digit_char d) "")) = Some (d, "").
Proof.
  intros Hd. replace d with (Z.of_nat (Z.to_nat d)) by lia.
  remember (Z.to_nat d) as k eqn:Ek. assert (1 <= k < 10)%nat by lia. clear -H.
  do 10 (destruct k as [|k]; [first [lia | split; reflexivity] |]). lia.
Qed.

Lemma strptime_complete (s : string) (d : date) :
  names_date d s -> strptime_Y_m_d s = Some d.
Proof.
  intros (Hv & ms & ds & -> & Hms & Hds). destruct d as [y m dd].
  cbn [year month day] in *.
  pose proof (valid_date_bounds _ _ _ Hv) as (Hy & Hm & Hd).
  pose proof (days_in_month_le_31 y m).
  unfold strptime_Y_m_d.
  rewrite match_Y_pad4 by lia. cbn [mbind option_bind].
  rewrite app_cons, app_empty_l, match_dash_cons. cbn [mbind option_bind].
  assert (Hmm : match_m (ms +:+ "-" +:+ ds) = Some (m, "-" +:+ ds)).
  { destruct Hms as [-> | [? ->]].
    - apply match_m_pad2. lia.
    - rewrite !app_cons, !app_empty_l. apply match_m_single. lia. }
  rewrite Hmm. cbn [mbind option_bind].
  rewrite app_cons, app_empty_l, match_dash_cons. cbn [mbind option_bind].
  assert (Hdd : match_d ds = Some (dd, "")).
  { destruct Hds as [-> | [[? ->] | [? ->]]].
    - apply match_d_pad2. lia.
    - apply match_d_single. lia.
    - apply match_d_single. lia. }
  rewrite Hdd. cbn [mbind option_bind]. by rewrite Hv.
Qed.

Lemma timestamp_has_T (d : date) (time : string) :
  has_char "T" (timestamp_of d time) = true.
Proof.
  unfold timestamp_of. rewrite has_char_app.
  change ("T" +:+ time +:+ "Z") with (String "T" (time +:+ "Z")).
  cbn [has_char]. rewrite Ascii.eqb_refl. apply orb_true_r.
Qed.

(** C6 (as the code has it). The date part alone decides: a timestamp whose
    date part names a real day parses to that day whatever follows the
    ['T']; a string parses to a date exactly when its part before the first
    ['T'] names that date, so every other string gives [None]; and [None]
    gives [None]. *)
Theorem parse_arxiv_date_spec :
  (forall d time,
      valid_date (year d) (month d) (day d) = true ->
      parse_arxiv_date (Some (timestamp_of d time)) = Some d)
  /\ (forall s d,
         parse_arxiv_date (Some s) = Some d <-> names_date d (before_char "T" s))
  /\ (forall s,
         (forall d, ~ names_date d (before_char "T" s)) ->
         parse_arxiv_date (Some s) = None)
  /\ parse_arxiv_date None = None.
Proof.
  split; [|split; [|split]].
  - intros d time Hv. rewrite parse_arxiv_date_date_part.
    unfold timestamp_of.
    change ("T" +:+ time +:+ "Z") with (String "T" (time +:+ "Z")).
    rewrite before_char_app by apply strftime_no_T.
    by apply strptime_strftime.
  - intros s d. rewrite parse_arxiv_date_date_part. split.
    + apply strptime_sound.
    + apply strptime_complete.
  - intros s Hno. rewrite parse_arxiv_date_date_part.
    destruct (strptime_Y_m_d (before_char "T" s)) as [d|] eqn:E; [|done].
    apply strptime_sound in E. by destruct (Hno d).
  - reflexivity.
Qed.

Lemma parse_arxiv_date_spec_witness :
  parse_arxiv_date (Some "2024-11-20T12:34:56Z") = Some (mkdate 2024 11 20).
Proof.
  exact (proj1 parse_arxiv_date_spec (mkdate 2024 11 20) "12:34:56" eq_refl).
Defined.

(** C6 (as stated) fails: a string with no ['T'] separator and no time is
    not a well-formed timestamp, yet it is parsed to a date. *)
Lemma parse_arxiv_date_bare_date :
  ~ well_formed_timestamp "2024-11-20"
  /\ parse_arxiv_date (Some "2024-11-20") = Some (mkdate 2024 11 20).
Proof.
  split; [|reflexivity].
  intros (d & time & _ & Heq).
  pose proof (timestamp_has_T d time) as HT. rewrite <- Heq in HT. discriminate.
Qed.

(** *** The date check *)

Lemma parse_empty : parse_arxiv_date (Some "") = None.
Proof. reflexivity. Qed.

Lemma field_verdict_parse (start_date end_date : date) (field : option string) :
  field_verdict start_date end_date field
  = in_window start_date end_date <$> parse_arxiv_date field.
Proof.
  unfold field_verdict. destruct field as [[|c s]|]; reflexivity.
Qed.

End ParseSpec.

(** ** The per-entry loop *)

Section LoopFacts.

Variable get_paper_comments : string -> string.
Variable processed_papers : gset string.
Variables categories excluded_categories keywords : option (list string).

Local Abbreviation step := (process_entry get_paper_comments processed_papers
                          categories excluded_categories keywords).
Local Abbreviation run := (process_entries get_paper_comments processed_papers
                         categories excluded_categories keywords).
Local Abbreviation block := (block_of get_paper_comments processed_papers
                           categories excluded_categories keywords).
Local Abbreviation is_new := (counts_as_new processed_papers categories
                            excluded_categories keywords).
Local Abbreviation ok := (accepted categories excluded_categories keywords).

(** What one iteration does to each variable. *)
Lemma process_entry_effect (start_window yesterday : date) (st : loop_state)
    (e : entry) :
  let st' := step start_window yesterday st e in
  body st' = body st +:+ block e
  /\ new_papers_count st' = (new_papers_count st + if is_new e then 1 else 0)%nat
  /\ shown_papers_count st' = (shown_papers_count st + if ok e then 1 else 0)%nat
  /\ already_processed_count st'
     = (already_processed_count st + if seen_before processed_papers e then 1 else 0)%nat
  /\ date_filtered_count st' = date_filtered_count st
  /\ new_processed_papers st'
     = new_processed_papers st
         ∪ (if is_new e then {[base_arxiv_id (entry_id e)]} else ∅).
Proof.
  unfold process_entry, block_of, counts_as_new, accepted, seen_before.
  destruct (filter_chain categories excluded_categories keywords e);
    destruct (bool_decide (base_arxiv_id (entry_id e) ∈ processed_papers));
    cbn -[String.append entry_html union];
    rewrite ?app_empty_r, ?Nat.add_0_r, ?Nat.add_1_r;
    repeat split; try done; set_solver.
Qed.

Lemma process_entries_cons (sw y : date) (st : loop_state) (e : entry)
    (es : list entry) :
  run sw y st (e :: es) = run sw y (step sw y st e) es.
Proof. reflexivity. Qed.

Lemma process_entries_app (sw y : date) (st : loop_state) (es1 es2 : list entry) :
  run sw y st (es1 ++ es2) = run sw y (run sw y st es1) es2.
Proof. unfold process_entries. apply foldl_app. Qed.

(** What the whole loop does to each variable. *)
Lemma process_entries_effect (sw y : date) (es : list entry) (st : loop_state) :
  let st' := run sw y st es in
  body st' = body st +:+ concat_str (block <$> es)
  /\ new_papers_count st' = (new_papers_count st + length (filter is_new es))%nat
  /\ shown_papers_count st' = (shown_papers_count st + length (filter ok es))%nat
  /\ already_processed_count st'
     = (already_processed_count st
        + length (filter (seen_before processed_papers) es))%nat
  /\ date_filtered_count st' = date_filtered_count st
  /\ new_processed_papers st'
     = new_processed_papers st
         ∪ list_to_set ((fun e => base_arxiv_id (entry_id e)) <$> filter is_new es).
Proof.
  revert st. induction es as [|e es IH]; intros st.
  - cbn -[String.append]. rewrite app_empty_r, !Nat.add_0_r.
    repeat split; try done. set_solver.
  - rewrite process_entries_cons.
    destruct (IH (step sw y st e)) as (Hb & Hn & Hs & Ha & Hd & Hp).
    destruct (process_entry_effect sw y st e) as (Hb1 & Hn1 & Hs1 & Ha1 & Hd1 & Hp1).
    cbn zeta. rewrite Hb, Hn, Hs, Ha, Hd, Hp, Hb1, Hn1, Hs1, Ha1, Hd1, Hp1.
    rewrite fmap_cons. cbn [concat_str foldr]. fold (concat_str (block <$> es)).
    rewrite !filter_cons.
    rewrite app_assoc_str.
    repeat split; try done.
    + destruct (is_new e); cbn [length]; case_decide; try done; cbn [length]; lia.
    + destruct (ok e); case_decide; try done; cbn [length]; lia.
    + destruct (seen_before processed_papers e); case_decide; try done;
        cbn [length]; lia.
    + destruct (is_new e); case_decide; try done;
        rewrite ?fmap_cons, ?list_to_set_cons; set_solver.
Qed.

End LoopFacts.

Section DedupFacts.

Variable get_paper_comments : string -> string.
Variable processed_papers : gset string.
Variables categories excluded_categories keywords : option (list string).

Local Abbreviation step := (process_entry get_paper_comments processed_papers
                          categories excluded_categories keywords).
Local Abbreviation run := (process_entries get_paper_comments processed_papers
                         categories excluded_categories keywords).
Local Abbreviation block := (block_of get_paper_comments processed_papers
                           categories excluded_categories keywords).
Local Abbreviation is_new := (counts_as_new processed_papers categories
                            excluded_categories keywords).



Lemma new_processed_not_seen (sw y : date) (es : list entry) (head b : string) :
  b ∈ new_processed_papers (run sw y (initial_state head) es) ->
  b ∉ processed_papers.
Proof.
  destruct (process_entries_effect get_paper_comments processed_papers categories
              excluded_categories keywords sw y es (initial_state head))
    as (_ & _ & _ & _ & _ & Hp).
  rewrite Hp. cbn [initial_state new_processed_papers].
  rewrite elem_of_union, elem_of_list_to_set, list_elem_of_fmap.
  intros [Hemp | (e & -> & He)]; [set_solver |].
  apply list_elem_of_filter in He as [He _].
  unfold counts_as_new, seen_before in He.
  apply Is_true_true in He. apply andb_true_iff in He as [_ He].
  apply negb_true_iff, bool_decide_eq_false in He. done.
Qed.

End DedupFacts.

(** C1 (as stated) fails: an entry whose base identifier is in the store
    and which fails the required-category check is counted as already
    processed but gets no block on the page. *)
Lemma seen_before_entry_filtered_not_rendered :
  let o := arxiv_alert elements (one_page [flares_v1]) no_comments "" ""
             {["2411.00001"]} (mkdate 2024 11 21) 1
             (Some ["astro-ph.co"]) None None None in
  seen_before {["2411.00001"]} flares_v1 = true
  /\ (already_processed_count <$> final_state o) = Some 1%nat
  /\ (shown_papers_count <$> final_state o) = Some 0%nat
  /\ PyStr.contains (title flares_v1) (page o) = false.
Proof. vm_compute. done. Qed.

(** ** The filter chain *)

Section FilterFacts.
Import PyStr.


Lemma filter_chain_cases (categories excluded_categories keywords : option (list string))
    (e : entry) :
  filter_chain categories excluded_categories keywords e =
  if fails_required categories e then RejectedRequired
  else if fails_excluded excluded_categories e
       then RejectedExcluded
              (excluded_found_in (lower <$> given excluded_categories) (tags e))
       else if fails_keywords keywords e then RejectedKeywords
            else Accepted (match keywords with
                           | Some kws => find_matching_keywords (title e) (summary e) kws
                           | None => []
                           end).
Proof.
  unfold filter_chain, fails_required, fails_excluded, fails_keywords.
  repeat case_match; try done; simpl in *; congruence.
Qed.

Variable get_paper_comments : string -> string.
Variable processed_papers : gset string.
Variables start_window yesterday : date.

Local Abbreviation step := (process_entry get_paper_comments processed_papers).


End FilterFacts.



(** ** The date check *)

Section DateCheckFacts.

Lemma is_date_in_range_unfold (e : entry) (s t : date) :
  is_date_in_range e s t =
  match parse_arxiv_date (arxiv_updated e) with
  | Some d => in_window s t d
  | None =>
  match parse_arxiv_date (updated e) with
  | Some d => in_window s t d
  | None =>
  match parse_arxiv_date (published e) with
  | Some d => in_window s t d
  | None =>
  match parse_arxiv_date (arxiv_created e) with
  | Some d => in_window s t d
  | None => true
  end end end end.
Proof.
  unfold is_date_in_range. rewrite !field_verdict_parse.
  destruct (parse_arxiv_date (arxiv_updated e)); [done |].
  destruct (parse_arxiv_date (updated e)); [done |].
  destruct (parse_arxiv_date (published e)); [done |].
  destruct (parse_arxiv_date (arxiv_created e)); done.
Qed.

Variable get_paper_comments : string -> string.
Variable processed_papers : gset string.
Variables categories excluded_categories keywords : option (list string).

Local Abbreviation step := (process_entry get_paper_comments processed_papers
                          categories excluded_categories keywords).
Local Abbreviation run := (process_entries get_paper_comments processed_papers
                         categories excluded_categories keywords).




End DateCheckFacts.


(** ** Pagination *)

Section PaginationFacts.

Variable fetch_page : Z -> option (list entry).
Variable cap : Z.

(** The loop, one iteration at a time. *)
Lemma paginate_step (start : Z) (st : batch_state) :
  paginate fetch_page cap start st =
  if decide (start < cap)
  then if full_page (fetch_page start)
       then paginate fetch_page cap (start + max_results_per_call)
              (after_request start (fetch_page start) st)
       else after_request start (fetch_page start) st
  else st.
Proof.
  rewrite paginate_unfold_eq. unfold paginate_unfold, paginate_unfold_clause_1.
  destruct (Z_lt_dec start cap) as [Hlt|Hge]; case_decide; try lia; [|done].
  unfold paginate_unfold_clause_1_clause_2, after_request, full_page.
  destruct (fetch_page start) as [[|e es]|]; cbn [given].
  - rewrite bool_decide_eq_false_2 by (cbn; unfold max_results_per_call; lia).
    cbn [add_page foldl length]. by rewrite Nat.add_0_r.
  - unfold paginate_unfold_clause_1_clause_2_clause_3.
    destruct (Z_lt_dec (Z.of_nat (length (e :: es))) max_results_per_call).
    + by rewrite bool_decide_eq_false_2 by lia.
    + by rewrite bool_decide_eq_true_2 by lia.
  - cbn [add_page foldl length]. by rewrite Nat.add_0_r.
Qed.


Lemma offsets_shift (start : Z) (n : nat) :
  start :: ((fun k => (start + max_results_per_call) + max_results_per_call * Z.of_nat k)
              <$> seq 0 n)
  = (fun k => start + max_results_per_call * Z.of_nat k) <$> seq 0 (S n).
Proof.
  cbn [seq fmap list_fmap]. f_equal; [lia |].
  rewrite <- fmap_S_seq, <- list_fmap_compose.
  apply list_fmap_ext. intros _ k _. cbn. lia.
Qed.

(** The requests of the loop started at [start]: their offsets, their number
    and the answers they got. *)
Lemma paginate_requests (n : nat) :
  forall (start : Z) (st : batch_state),
    (Z.to_nat (cap - start) <= n)%nat ->
    exists offs : list Z,
      requests (paginate fetch_page cap start st) = requests st ++ offs
      /\ page_num (paginate fetch_page cap start st) = (page_num st + length offs)%nat
      /\ offs = (fun k => start + max_results_per_call * Z.of_nat k)
                  <$> seq 0 (length offs)
      /\ Forall (fun s => s < cap) offs
      /\ (forall i s, offs !! i = Some s -> (S i < length offs)%nat ->
                      full_page (fetch_page s) = true)
      /\ (forall s, last offs = Some s ->
                    full_page (fetch_page s) = false \/ cap <= s + max_results_per_call)
      /\ (offs = [] -> cap <= start)
      /\ (length offs <= Z.to_nat ((cap - start + (max_results_per_call - 1))
                                     / max_results_per_call))%nat.
Proof.
  induction n as [|n IH]; intros start st Hn; rewrite paginate_step.
  - case_decide; [lia |]. exists []. rewrite app_nil_r.
    repeat split; try done; cbn; lia.
  - case_decide as Hlt.
    2:{ exists []. rewrite app_nil_r.
        repeat split; try done; cbn; lia. }
    destruct (full_page (fetch_page start)) eqn:Hfull.
    + destruct (IH (start + max_results_per_call)
                  (after_request start (fetch_page start) st))
        as (offs & Hr & Hp & Ho & Hc & Hf & Hl & He & Hb).
      { unfold max_results_per_call. lia. }
      exists (start :: offs). rewrite Hr, Hp. cbn [after_request requests page_num].
      rewrite <- app_assoc. cbn [app length].
      split; [done |]. split; [lia |]. split.
      { rewrite <- offsets_shift. by f_equal. }
      split; [by constructor |]. split.
      { intros [|i] s Hi Hlen; cbn in Hi.
        - by injection Hi as <-.
        - apply (Hf i s Hi). lia. }
      split.
      { intros s. destruct offs as [|o offs'] eqn:Eo.
        - cbn. intros [= <-]. right. by apply He.
        - rewrite last_cons_cons. apply Hl. }
      split; [done |].
      unfold max_results_per_call in *. 
      assert (Z.to_nat ((cap - start + (200 - 1)) / 200)
              = S (Z.to_nat ((cap - (start + 200) + (200 - 1)) / 200))) as ->; [|lia].
      Z.to_euclidean_division_equations. lia.
    + exists [start]. cbn [after_request requests page_num length].
      split; [done |]. split; [lia |]. split.
      { cbn. f_equal. lia. }
      split; [by repeat constructor |]. split.
      { intros [|i] s Hi Hlen; cbn in Hlen; lia. }
      split.
      { cbn. intros s [= <-]. by left. }
      split; [done |].
      unfold max_results_per_call. cbn [length].
      Z.to_euclidean_division_equations. lia.
Qed.

End PaginationFacts.

(** C7. In the loop of one keyword batch the requests go out at offsets 0,
    200, 400, ..., each below the cap; every request that is followed by
    another one was answered by a full page, so a failed request, an empty
    or malformed answer and a short page each end the loop, and so does an
    offset that reaches the cap; the number of requests is at most the
    ceiling of cap / page size, which is at most 10 in [arxiv_alert]. *)
Theorem pagination_stops_and_is_bounded
    (fetch_page : Z -> option (list entry)) (cap : Z) (acc : fetched) :
  let r := paginate fetch_page cap 0 (mkbatch acc 0 0 []) in
  page_num r = length (requests r)
  /\ requests r = (fun k => max_results_per_call * Z.of_nat k) <$> seq 0 (page_num r)
  /\ (forall s, s ∈ requests r -> s < cap)
  /\ (forall i s, requests r !! i = Some s -> (S i < page_num r)%nat ->
                  full_page (fetch_page s) = true)
  /\ (forall s, last (requests r) = Some s ->
                full_page (fetch_page s) = false \/ cap <= s + max_results_per_call)
  /\ (full_page None = false /\ full_page (Some []) = false
      /\ forall es, Z.of_nat (length es) < max_results_per_call ->
                    full_page (Some es) = false)
  /\ (page_num r <= max_pages cap)%nat
  /\ (forall amount_of_days, (max_pages (max_total_results amount_of_days) <= 10)%nat)
  /\ (forall arxiv_api categories authors api_start_window yesterday amount_of_days
             keyword_batch,
        (page_num (fetch_keyword_batch arxiv_api categories authors api_start_window
                     yesterday (max_total_results amount_of_days) acc keyword_batch)
         <= 10)%nat).
Proof.
  assert (Hmax : forall d, (max_pages (max_total_results d) <= 10)%nat).
  { intros d. unfold max_pages, max_total_results, max_results_per_call.
    Z.to_euclidean_division_equations. lia. }
  assert (Hgen : forall f c,
             exists offs : list Z,
               requests (paginate f c 0 (mkbatch acc 0 0 [])) = offs
               /\ page_num (paginate f c 0 (mkbatch acc 0 0 [])) = length offs
               /\ offs = (fun k => max_results_per_call * Z.of_nat k)
                           <$> seq 0 (length offs)
               /\ Forall (fun s => s < c) offs
               /\ (forall i s, offs !! i = Some s -> (S i < length offs)%nat ->
                               full_page (f s) = true)
               /\ (forall s, last offs = Some s ->
                             full_page (f s) = false \/ c <= s + max_results_per_call)
               /\ (length offs <= max_pages c)%nat).
  { intros f c.
    destruct (paginate_requests f c (Z.to_nat (c - 0)) 0 (mkbatch acc 0 0 [])
                ltac:(lia)) as (offs & Hr & Hp & Ho & Hc & Hf & Hl & _ & Hb).
    exists offs. cbn [requests page_num app] in Hr, Hp.
    split; [done |]. split; [done |]. split.
    { rewrite Ho at 1. apply list_fmap_ext. intros _ k _. lia. }
    split; [done |]. split; [done |]. split; [done |].
    unfold max_pages. by rewrite Z.sub_0_r in Hb. }
  intros r. subst r.
  destruct (Hgen fetch_page cap) as (offs & Hr & Hp & Ho & Hc & Hf & Hl & Hb).
  rewrite Hr, Hp.
  split; [done |]. split; [done |]. split.
  { intros s Hs. by apply (proj1 (Forall_forall _ _) Hc). }
  split; [done |]. split; [done |]. split.
  { split; [done |]. split; [done |]. intros es Hes. unfold full_page.
    apply bool_decide_eq_false. lia. }
  split; [done |]. split; [done |].
  intros api cats au asw y d kb. unfold fetch_keyword_batch.
  destruct (Hgen (fetch_arxiv_batch api cats kb au (Some asw) (Some y)
                    max_results_per_call) (max_total_results d))
    as (offs' & _ & Hp' & _ & _ & _ & _ & Hb').
  rewrite Hp'. specialize (Hmax d). lia.
Qed.

(** With a cap of 2000 and a first page of two entries: at most ten
    requests, and in fact the short page ends the loop. *)
Lemma pagination_stops_and_is_bounded_witness :
  let r := paginate (fun start => one_page [lensing_v1; flares_v1] "q" start 200)
             2000 0 (mkbatch (mkfetched [] ∅) 0 0 []) in
  (page_num r <= max_pages 2000)%nat /\ requests r = [0].
Proof.
  split.
  - apply (pagination_stops_and_is_bounded
             (fun start => one_page [lensing_v1; flares_v1] "q" start 200)
             2000 (mkfetched [] ∅)).
  - vm_compute. reflexivity.
Defined.

(** ** The dedup store *)

Section StoreFacts.

Variable set_to_list : gset string -> list string.

(** [list(s)] enumerates the elements of [s], each once, in some order. *)
Hypothesis set_to_list_perm : forall s, set_to_list s ≡ₚ elements s.

Lemma set_to_list_facts (s : gset string) :
  NoDup (set_to_list s) /\ length (set_to_list s) = size s
  /\ forall x, x ∈ set_to_list s <-> x ∈ s.
Proof.
  split; [|split].
  - rewrite set_to_list_perm. apply NoDup_elements.
  - by rewrite set_to_list_perm.
  - intros x. rewrite set_to_list_perm. apply elem_of_elements.
Qed.

Lemma clean_small (s : gset string) :
  (size s <= 1000)%nat -> clean_old_processed_papers set_to_list s = s.
Proof.
  intros H. unfold clean_old_processed_papers.
  destruct (1000 <? size s)%nat eqn:E; [|done].
  apply Nat.ltb_lt in E. lia.
Qed.

Lemma clean_large (s : gset string) :
  (1000 < size s)%nat ->
  clean_old_processed_papers set_to_list s ⊆ s
  /\ size (clean_old_processed_papers set_to_list s) = 500%nat.
Proof.
  intros H. unfold clean_old_processed_papers.
  destruct (1000 <? size s)%nat eqn:E; [|apply Nat.ltb_ge in E; lia].
  destruct (set_to_list_facts s) as (Hnd & Hlen & Hin).
  split.
  - intros x Hx. apply elem_of_list_to_set in Hx. apply Hin.
    apply list_elem_of_lookup in Hx as [i Hi]. rewrite lookup_drop in Hi.
    by apply list_elem_of_lookup_2 in Hi.
  - rewrite size_list_to_set.
    + rewrite length_drop. lia.
    + rewrite <- (take_drop (length (set_to_list s) - 500) (set_to_list s)) in Hnd.
      by apply NoDup_app in Hnd as (_ & _ & Hnd).
Qed.

Lemma clean_size (s : gset string) :
  (size (clean_old_processed_papers set_to_list s) <= 1000)%nat.
Proof.
  destruct (decide (size s <= 1000)%nat).
  - by rewrite clean_small.
  - destruct (clean_large s) as [_ ->]; lia.
Qed.

Variable arxiv_api : string -> Z -> Z -> option (list entry).
Variable get_paper_comments : string -> string.
Variables style_block mathjax_block : string.

Local Abbreviation alert := (arxiv_alert set_to_list arxiv_api get_paper_comments
                           style_block mathjax_block).

(** What a run leaves behind, without the page. *)
Lemma arxiv_alert_summary (processed_papers : gset string) (today : date)
    (amount_of_days : Z)
    (categories keywords authors excluded_categories : option (list string)) :
  let es := fetched_entries arxiv_api today amount_of_days categories keywords
              authors in
  let o := alert processed_papers today amount_of_days categories keywords authors
             excluded_categories in
  new_papers_count <$> final_state o
  = (if nonempty es
     then Some (length (filter (counts_as_new processed_papers categories
                                  excluded_categories keywords) es))
     else None)
  /\ new_processed_papers <$> final_state o
     = (if nonempty es
        then Some (new_ids processed_papers categories excluded_categories keywords es)
        else None)
  /\ store_after processed_papers o
     = (if nonempty es
        then clean_old_processed_papers set_to_list
               (processed_papers
                  ∪ new_ids processed_papers categories excluded_categories keywords es)
        else processed_papers).
Proof.
  unfold arxiv_alert, fetched_entries. cbn zeta.
  match goal with
  | |- context [all_entries ?F] => generalize (all_entries F)
  end.
  intros [|e es]; [done |].
  cbn [final_state store_after nonempty fmap option_fmap option_map].
  match goal with
  | |- context [process_entries ?g ?p ?c ?x ?k ?sw ?y ?st ?l] =>
      destruct (process_entries_effect g p c x k sw y l st)
        as (_ & Hn & _ & _ & _ & Hp)
  end.
  rewrite Hn, Hp. cbn [initial_state new_papers_count new_processed_papers].
  unfold new_ids. rewrite (left_id_L ∅ (∪)). done.
Qed.

(** C8. The prune leaves a store of at most 1000 identifiers alone and cuts
    a larger one down to 500 of its elements, so the store a run saves never
    has more than 1000. *)
Theorem clean_old_processed_papers_caps_store :
  (forall s, (size s <= 1000)%nat -> clean_old_processed_papers set_to_list s = s)
  /\ (forall s, (1000 < size s)%nat ->
                clean_old_processed_papers set_to_list s ⊆ s
                /\ size (clean_old_processed_papers set_to_list s) = 500%nat)
  /\ (forall processed_papers today amount_of_days categories keywords authors
             excluded_categories html st saved,
        alert processed_papers today amount_of_days categories keywords authors
          excluded_categories = Digest html st saved ->
        (size saved <= 1000)%nat).
Proof.
  split; [apply clean_small | split; [apply clean_large |]].
  intros pp today d cats kws au ex html st saved H.
  unfold arxiv_alert in H. cbn zeta in H.
  match type of H with
  | context [all_entries ?F] => destruct (all_entries F)
  end; [discriminate |].
  injection H as _ _ <-. apply clean_size.
Qed.

End StoreFacts.

Lemma clean_old_processed_papers_caps_store_witness :
  clean_old_processed_papers elements {["2411.00001"; "2411.00002"]}
  = {["2411.00001"; "2411.00002"]}.
Proof.
  apply (proj1 (clean_old_processed_papers_caps_store elements
                  (fun s => reflexivity (elements s)) big_upstream no_comments "" "")).
  vm_compute. lia.
Defined.

(** ** Runs and re-runs *)

Section RerunFacts.


Variable set_to_list : gset string -> list string.
Hypothesis set_to_list_perm : forall s, set_to_list s ≡ₚ elements s.
Variable arxiv_api : string -> Z -> Z -> option (list entry).
Variable get_paper_comments : string -> string.
Variables style_block mathjax_block : string.

Local Abbreviation alert := (arxiv_alert set_to_list arxiv_api get_paper_comments
                           style_block mathjax_block).

Lemma filter_none {A} (P : A -> Prop) `{!forall x, Decision (P x)} (l : list A) :
  (forall x, x ∈ l -> ~ P x) -> filter P l = [].
Proof.
  induction l as [|x l IH]; intros Hno; [done |].
  rewrite filter_cons_False by (apply Hno; by left).
  apply IH. intros y Hy. apply Hno. by right.
Qed.

(** Against a store that holds the old identifiers and those of the new
    entries, no entry counts as new. *)
Lemma nothing_new_against_updated_store
    (processed_papers store : gset string)
    (categories excluded_categories keywords : option (list string))
    (es : list entry) :
  processed_papers ∪ new_ids processed_papers categories excluded_categories keywords es
    ⊆ store ->
  filter (counts_as_new store categories excluded_categories keywords) es = [].
Proof.
  intros Hsub. apply filter_none. intros e He Hnew.
  apply Is_true_true in Hnew. unfold counts_as_new in Hnew.
  apply andb_true_iff in Hnew as [Hacc Hns].
  apply negb_true_iff, bool_decide_eq_false in Hns. apply Hns, Hsub.
  destruct (seen_before processed_papers e) eqn:Hseen.
  - apply bool_decide_eq_true in Hseen. set_solver.
  - apply elem_of_union_r. unfold new_ids.
    apply elem_of_list_to_set, list_elem_of_fmap. exists e. split; [done |].
    apply list_elem_of_filter. split; [|done].
    apply Is_true_true. unfold counts_as_new. by rewrite Hacc, Hseen.
Qed.

(** C9 (as the code has it). When the first run does not grow the store
    beyond 1000 identifiers, so that the prune keeps all of it, a second run
    from the saved store on the same upstream results counts no new paper. *)
Theorem second_run_counts_nothing_new
    (processed_papers : gset string) (today : date) (amount_of_days : Z)
    (categories keywords authors excluded_categories : option (list string)) :
  let first := alert processed_papers today amount_of_days categories keywords
                 authors excluded_categories in
  let second := alert (store_after processed_papers first) today amount_of_days
                  categories keywords authors excluded_categories in
  (forall st1, final_state first = Some st1 ->
               (size (processed_papers ∪ new_processed_papers st1) <= 1000)%nat) ->
  forall st2, final_state second = Some st2 -> new_papers_count st2 = 0%nat.
Proof.
  intros first second Hsmall st2 Hst2.
  destruct (arxiv_alert_summary set_to_list arxiv_api get_paper_comments style_block
              mathjax_block processed_papers today amount_of_days categories keywords
              authors excluded_categories) as (_ & Hp1 & Hs1).
  destruct (arxiv_alert_summary set_to_list arxiv_api get_paper_comments style_block
              mathjax_block (store_after processed_papers first) today amount_of_days
              categories keywords authors excluded_categories) as (Hn2 & _ & _).
  fold first in Hp1, Hs1. fold second in Hn2.
  rewrite Hst2 in Hn2. cbn [fmap option_fmap option_map] in Hn2.
  destruct (nonempty (fetched_entries arxiv_api today amount_of_days categories
                        keywords authors)); [|discriminate].
  injection Hn2 as ->.
  destruct (final_state first) as [st1|] eqn:E1; [|discriminate].
  injection Hp1 as Hp1. specialize (Hsmall st1 eq_refl). rewrite Hp1 in Hsmall.
  rewrite Hs1, clean_small by done.
  by rewrite (nothing_new_against_updated_store processed_papers).
Qed.

End RerunFacts.

Lemma second_run_counts_nothing_new_witness :
  let first := arxiv_alert elements (one_page [lensing_v1; flares_v1]) no_comments
                 "" "" ∅ (mkdate 2024 11 21) 1 None None None None in
  let second := arxiv_alert elements (one_page [lensing_v1; flares_v1]) no_comments
                  "" "" (store_after ∅ first) (mkdate 2024 11 21) 1
                  None None None None in
  (new_papers_count <$> final_state first) = Some 2%nat
  /\ forall st2, final_state second = Some st2 -> new_papers_count st2 = 0%nat.
Proof.
  split; [vm_compute; reflexivity |].
  apply (second_run_counts_nothing_new elements (fun s => reflexivity (elements s))
           (one_page [lensing_v1; flares_v1]) no_comments "" "" ∅ (mkdate 2024 11 21)
           1 None None None None).
  intros st1 Hst1. revert Hst1. vm_compute. intros [= <-]. vm_compute. lia.
Defined.

(** *** A run that outgrows the store *)

Section NumberedFacts.
Import PyStr.

Lemma str_of_nat_inj (n m : nat) : str_of_nat n = str_of_nat m -> n = m.
Proof.
  unfold str_of_nat. intros H.
  apply DecimalNat.Unsigned.to_uint_inj.
  pose proof (NilEmpty.usu (Nat.to_uint n)) as Hn.
  pose proof (NilEmpty.usu (Nat.to_uint m)) as Hm.
  rewrite H in Hn. rewrite Hn in Hm. by injection Hm.
Qed.

(** A decimal numeral has neither a slash nor a ['v'] in it. *)
Lemma string_of_uint_plain (d : Decimal.uint) :
  has_char "/" (NilEmpty.string_of_uint d) = false
  /\ has_char "v" (NilEmpty.string_of_uint d) = false.
Proof.
  induction d as [|d [IH1 IH2]|d [IH1 IH2]|d [IH1 IH2]|d [IH1 IH2]|d [IH1 IH2]
                  |d [IH1 IH2]|d [IH1 IH2]|d [IH1 IH2]|d [IH1 IH2]|d [IH1 IH2]];
    cbn [NilEmpty.string_of_uint has_char]; rewrite ?IH1, ?IH2; done.
Qed.

(** A string without a slash is a single piece for [split('/abs/')]. *)
Lemma split_go_plain (cur s : string) :
  has_char "/" s = false -> split_go "/abs/" 0 cur s = [cur +:+ s].
Proof.
  revert cur. induction s as [|a s IH]; intros cur H.
  - cbn [split_go]. by rewrite app_empty_r.
  - cbn [has_char] in H. apply orb_false_iff in H as [Ha Hs].
    cbn [split_go startswith]. rewrite (Ascii.eqb_sym "/" a), Ha. cbn [andb].
    rewrite IH by done. by rewrite app_assoc_str.
Qed.

Lemma entry_id_sample (ident title summary : string) (tags : list string) :
  has_char "/" ident = false ->
  entry_id (sample_entry ident title summary tags) = ident.
Proof.
  intros H. unfold entry_id, sample_entry, split. cbn [id].
  change (split_go "/abs/" 0 "" ("http://arxiv.org/abs/" +:+ ident))
    with ("http://arxiv.org" :: split_go "/abs/" 0 "" ident).
  by rewrite split_go_plain.
Qed.

Lemma numbered_entry_id (n : nat) :
  entry_id (numbered_entry n) = "2411." +:+ str_of_nat n +:+ "v1".
Proof.
  unfold numbered_entry. apply entry_id_sample.
  destruct (string_of_uint_plain (Nat.to_uint n)) as [H _].
  rewrite !has_char_app. unfold str_of_nat. by rewrite H.
Qed.

Lemma numbered_entry_base (n : nat) :
  base_arxiv_id (entry_id (numbered_entry n)) = "2411." +:+ str_of_nat n.
Proof.
  rewrite numbered_entry_id.
  assert (Hv : has_char "v" ("2411." +:+ str_of_nat n) = false).
  { destruct (string_of_uint_plain (Nat.to_uint n)) as [_ H].
    rewrite has_char_app. unfold str_of_nat. by rewrite H. }
  replace ("2411." +:+ str_of_nat n +:+ "v1")
    with (("2411." +:+ str_of_nat n) +:+ String "v" "1")
    by (by rewrite app_assoc_str).
  unfold base_arxiv_id. rewrite has_char_app, Hv. cbn [orb has_char Ascii.eqb].
  rewrite split_char_first. by apply before_char_app.
Qed.

Lemma numbered_entry_id_inj (n m : nat) :
  entry_id (numbered_entry n) = entry_id (numbered_entry m) -> n = m.
Proof.
  intros H. apply (f_equal base_arxiv_id) in H.
  rewrite !numbered_entry_base in H.
  apply str_of_nat_inj. by apply (inj (String.append "2411.")) in H.
Qed.

Lemma numbered_entries_ids_distinct (l : list nat) :
  NoDup l ->
  NoDup (entry_id <$> (numbered_entry <$> l))
  /\ NoDup ((fun e => base_arxiv_id (entry_id e)) <$> (numbered_entry <$> l)).
Proof.
  intros Hl. rewrite <- !list_fmap_compose. split.
  - apply NoDup_fmap_2_strong; [|done]. intros n m _ _. apply numbered_entry_id_inj.
  - apply NoDup_fmap_2_strong; [|done]. intros n m _ _ H. unfold compose in H.
    rewrite !numbered_entry_base in H.
    apply str_of_nat_inj. by apply (inj (String.append "2411.")) in H.
Qed.

End NumberedFacts.

Section FetchFacts.

Lemma add_page_cons (acc : fetched) (e : entry) (page : list entry) :
  add_page acc (e :: page) = add_page (add_entry acc e) page.
Proof. reflexivity. Qed.

(** A page of entries with distinct identifiers, none of them fetched
    before, is appended whole. *)
Lemma add_page_fresh (page : list entry) :
  forall acc : fetched,
    NoDup (entry_id <$> page) ->
    (forall e, e ∈ page -> entry_id e ∉ all_entry_ids acc) ->
    all_entries (add_page acc page) = all_entries acc ++ page
    /\ all_entry_ids (add_page acc page)
       = list_to_set (entry_id <$> page) ∪ all_entry_ids acc.
Proof.
  induction page as [|e page IH]; intros acc Hnd Hfresh.
  - cbn [add_page foldl fmap list_fmap list_to_set].
    rewrite app_nil_r. split; [done | set_solver].
  - rewrite fmap_cons in Hnd. apply NoDup_cons in Hnd as [Hnotin Hnd].
    rewrite add_page_cons.
    assert (Hadd : add_entry acc e
                   = mkfetched (all_entries acc ++ [e])
                       ({[entry_id e]} ∪ all_entry_ids acc)).
    { unfold add_entry. rewrite bool_decide_eq_false_2; [done |].
      apply Hfresh. by left. }
    destruct (IH (add_entry acc e) Hnd) as [Ha Hi].
    { intros e' He'. rewrite Hadd. cbn [all_entry_ids].
      rewrite elem_of_union, elem_of_singleton. intros [Heq | Hin].
      - apply Hnotin. rewrite <- Heq. apply list_elem_of_fmap. by exists e'.
      - revert Hin. apply Hfresh. by right. }
    rewrite Ha, Hi, Hadd. cbn [all_entries all_entry_ids].
    rewrite <- app_assoc, fmap_cons, list_to_set_cons. split; [done | set_solver].
Qed.

(** The pages of [big_upstream]: from offset [200 * k] on, with the first
    [200 * k] numbered entries fetched, the loop ends with all 1200. *)
Lemma big_upstream_paginate (q : string) (j : nat) :
  forall (k : nat) (start : Z) (st : batch_state),
    (j + k = 6)%nat ->
    start = 200 * Z.of_nat k ->
    all_entries (so_far st) = numbered_entry <$> seq 0 (200 * k) ->
    all_entry_ids (so_far st) = list_to_set (entry_id <$> all_entries (so_far st)) ->
    all_entries
      (so_far (paginate (fun s => big_upstream q s max_results_per_call) 2000 start st))
    = numbered_entry <$> seq 0 (200 * 6).
Proof.
  induction j as [|j IH]; intros k start st Hk -> Hall Hids; rewrite paginate_step;
    (case_decide; [|lia]).
  - assert (k = 6)%nat as -> by lia.
    assert (Hpage : big_upstream q (200 * Z.of_nat 6) max_results_per_call = Some []).
    { unfold big_upstream. by rewrite (proj2 (Z.ltb_ge _ _)) by lia. }
    rewrite !Hpage.
    cbn [full_page length]. rewrite bool_decide_eq_false_2
      by (unfold max_results_per_call; lia).
    unfold after_request. cbn [so_far given add_page foldl]. exact Hall.
  - assert (Hpage : big_upstream q (200 * Z.of_nat k) max_results_per_call
                    = Some (numbered_entry <$> seq (200 * k) 200)).
    { unfold big_upstream. rewrite (proj2 (Z.ltb_lt _ _)) by lia.
      by replace (Z.to_nat (200 * Z.of_nat k)) with (200 * k)%nat by lia. }
    rewrite !Hpage.
    cbn [full_page]. rewrite length_fmap, length_seq.
    rewrite bool_decide_eq_true_2 by (unfold max_results_per_call; lia).
    destruct (numbered_entries_ids_distinct (seq (200 * k) 200) (NoDup_seq _ _))
      as [Hnd _].
    destruct (add_page_fresh (numbered_entry <$> seq (200 * k) 200) (so_far st) Hnd)
      as [Ha Hi].
    { intros e He. rewrite Hids, Hall.
      apply list_elem_of_fmap in He as (n & -> & Hn). apply elem_of_seq in Hn.
      rewrite elem_of_list_to_set, <- list_fmap_compose, list_elem_of_fmap.
      intros (m & Heq & Hm). apply elem_of_seq in Hm.
      apply numbered_entry_id_inj in Heq. lia. }
    apply (IH (S k)); [lia | unfold max_results_per_call; lia | |];
      unfold after_request; cbn [so_far given].
    + rewrite Ha, Hall, <- fmap_app. f_equal.
      replace (200 * S k)%nat with (200 * k + 200)%nat by lia.
      by rewrite seq_app.
    + rewrite Hi, Ha, Hids, fmap_app, list_to_set_app_L. apply (comm_L (∪)).
Qed.

End FetchFacts.

(** What [big_upstream] delivers over ten days: six full pages. *)
Lemma big_upstream_entries :
  fetched_entries big_upstream (mkdate 2024 11 21) 10 None None None
  = numbered_entry <$> seq 0 1200.
Proof.
  unfold fetched_entries, fetch_all.
  change (keyword_batches None) with [None : option (list string)].
  cbn [foldl]. unfold fetch_keyword_batch, fetch_arxiv_batch.
  change (max_total_results (if 10 <? 1 then 1 else 10)) with 2000.
  rewrite (big_upstream_paginate _ 6 0 0); try done.
Qed.

Lemma numbered_entries_distinct :
  NoDup ((fun e => base_arxiv_id (entry_id e)) <$> (numbered_entry <$> seq 0 1200)).
Proof. apply numbered_entries_ids_distinct, NoDup_seq. Qed.

(** Without filters every entry outside the store counts as new. *)
Lemma counts_as_new_unfiltered (store : gset string) (e : entry) :
  counts_as_new store None None None e
  = negb (bool_decide (base_arxiv_id (entry_id e) ∈ store)).
Proof. reflexivity. Qed.

Lemma count_outside (store : gset string) (l : list entry) :
  NoDup ((fun e => base_arxiv_id (entry_id e)) <$> l) ->
  length (filter (counts_as_new store None None None) l)
  = size (list_to_set ((fun e => base_arxiv_id (entry_id e)) <$> l) ∖ store).
Proof.
  induction l as [|e l IH]; intros Hnd.
  - cbn [fmap list_fmap list_to_set]. by rewrite filter_nil, difference_disjoint_L,
      size_empty.
  - rewrite fmap_cons in Hnd. apply NoDup_cons in Hnd as [Hnotin Hnd].
    rewrite filter_cons, fmap_cons, list_to_set_cons.
    rewrite counts_as_new_unfiltered.
    destruct (bool_decide (base_arxiv_id (entry_id e) ∈ store)) eqn:E.
    + apply bool_decide_eq_true in E. case_decide; [done |].
      rewrite IH by done. f_equal. set_solver.
    + apply bool_decide_eq_false in E. case_decide; [|exfalso; auto].
      cbn [length]. rewrite IH by done.
      set (X := list_to_set ((fun e => base_arxiv_id (entry_id e)) <$> l) : gset string).
      assert (Hnew : base_arxiv_id (entry_id e) ∉ X ∖ store).
      { subst X. rewrite elem_of_difference, elem_of_list_to_set. tauto. }
      assert (Heq : ({[base_arxiv_id (entry_id e)]} ∪ X) ∖ store
                    = {[base_arxiv_id (entry_id e)]} ∪ (X ∖ store)) by set_solver.
      rewrite Heq.
      rewrite (size_union (C:=gset string) {[base_arxiv_id (entry_id e)]} (X ∖ store))
        by set_solver.
      by rewrite size_singleton.
Qed.

Lemma numbered_entries_length : length (numbered_entry <$> seq 0 1200) = 1200%nat.
Proof. rewrite length_fmap, length_seq. reflexivity. Qed.

Section Outgrown.

Variable set_to_list : gset string -> list string.
Hypothesis set_to_list_perm : forall s, set_to_list s ≡ₚ elements s.

(** More than 1000 papers with distinct base identifiers, all new, against
    an empty store: the prune keeps 500 of the identifiers, and against the
    pruned store all the other papers are new again. *)
Lemma prune_forgets (es : list entry) :
  NoDup ((fun e => base_arxiv_id (entry_id e)) <$> es) ->
  (1000 < length es)%nat ->
  let store := clean_old_processed_papers set_to_list
                 (∅ ∪ new_ids ∅ None None None es) in
  length (filter (counts_as_new ∅ None None None) es) = length es
  /\ size store = 500%nat
  /\ length (filter (counts_as_new store None None None) es) = (length es - 500)%nat.
Proof.
  intros Hnd Hlen.
  set (ids := list_to_set ((fun e => base_arxiv_id (entry_id e)) <$> es) : gset string).
  assert (Hsize : size ids = length es).
  { subst ids. rewrite size_list_to_set by exact Hnd. apply length_fmap. }
  assert (Hall : length (filter (counts_as_new ∅ None None None) es) = length es).
  { rewrite count_outside by exact Hnd. fold ids. rewrite difference_empty_L.
    exact Hsize. }
  assert (Hids : new_ids ∅ None None None es = ids).
  { unfold new_ids. subst ids. f_equal. f_equal. clear.
    induction es as [|e l IH]; [reflexivity |].
    rewrite filter_cons, counts_as_new_unfiltered.
    rewrite bool_decide_eq_false_2 by set_solver.
    case_decide; [|exfalso; auto]. f_equal. exact IH. }
  rewrite Hids, (left_id_L ∅ (∪)). cbn zeta.
  destruct (clean_large set_to_list set_to_list_perm ids) as [Hsub Hkept]; [lia |].
  split; [exact Hall |]. split; [exact Hkept |].
  rewrite count_outside by exact Hnd. fold ids.
  rewrite (size_difference (C:=gset string) ids _ Hsub). lia.
Qed.

(** Whatever the order in which the set is listed: the first run finds 1200
    new papers, its prune keeps 500 identifiers, and the second run finds
    the other 700 papers new again. *)
Lemma second_run_after_prune_any_order :
  let first := arxiv_alert set_to_list big_upstream no_comments "" "" ∅
                 (mkdate 2024 11 21) 10 None None None None in
  let second := arxiv_alert set_to_list big_upstream no_comments "" ""
                  (store_after ∅ first) (mkdate 2024 11 21) 10 None None None None in
  (new_papers_count <$> final_state first) = Some 1200%nat
  /\ size (store_after ∅ first) = 500%nat
  /\ (new_papers_count <$> final_state second) = Some 700%nat.
Proof.
  intros first second.
  destruct (arxiv_alert_summary set_to_list big_upstream no_comments "" "" ∅
              (mkdate 2024 11 21) 10 None None None None) as (Hn1 & _ & Hs1).
  destruct (arxiv_alert_summary set_to_list big_upstream no_comments "" ""
              (store_after ∅ first) (mkdate 2024 11 21) 10 None None None None)
    as (Hn2 & _ & _).
  fold first in Hn1, Hs1. fold second in Hn2.
  rewrite big_upstream_entries in Hn1, Hs1, Hn2.
  change (nonempty (numbered_entry <$> seq 0 1200)) with true in Hn1, Hs1, Hn2.
  cbv iota in Hn1, Hs1, Hn2.
  pose proof numbered_entries_distinct as Hnd.
  pose proof numbered_entries_length as Hlen.
  revert Hn1 Hs1 Hn2 Hnd Hlen. generalize (numbered_entry <$> seq 0 1200).
  generalize first second. clear first second.
  intros first second es Hn1 Hs1 Hn2 Hnd Hlen.
  destruct (prune_forgets es Hnd ltac:(lia)) as (H1 & H2 & H3).
  cbn zeta in H2, H3. rewrite <- Hs1 in H2, H3.
  rewrite Hn1, Hn2, H1, H2, H3, Hlen. clear. repeat split.
Qed.

End Outgrown.

(** C9 (as stated) fails: a first run that accepts 1200 new papers saves a
    store pruned to 500 identifiers, and the second run on the same upstream
    results counts the other 700 as new again. *)
Lemma second_run_after_prune_counts_new :
  let first := arxiv_alert elements big_upstream no_comments "" "" ∅
                 (mkdate 2024 11 21) 10 None None None None in
  let second := arxiv_alert elements big_upstream no_comments "" ""
                  (store_after ∅ first) (mkdate 2024 11 21) 10 None None None None in
  (new_papers_count <$> final_state first) = Some 1200%nat
  /\ size (store_after ∅ first) = 500%nat
  /\ (new_papers_count <$> final_state second) = Some 700%nat.
Proof.
  exact (second_run_after_prune_any_order elements (fun s => reflexivity (elements s))).
Qed.

(** ** Versions of one paper *)

Section VersionFacts.
Import PyStr.

(** The base identifier is what precedes the first ['v']. *)
Lemma base_arxiv_id_before_v (arxiv_id : string) :
  base_arxiv_id arxiv_id = before_char "v" arxiv_id.
Proof.
  unfold base_arxiv_id. destruct (has_char "v" arxiv_id) eqn:E.
  - apply split_char_first.
  - symmetry. by apply before_char_absent.
Qed.

Lemma base_arxiv_id_versioned (b n : string) :
  base_arxiv_id (b +:+ "v" +:+ n) = before_char "v" b.
Proof.
  rewrite base_arxiv_id_before_v.
  change ("v" +:+ n) with (String "v" n).
  destruct (has_char "v" b) eqn:E.
  - by apply before_char_present.
  - rewrite before_char_app by done. symmetry. by apply before_char_absent.
Qed.

Variable get_paper_comments : string -> string.
Variable processed_papers : gset string.
Variables categories excluded_categories keywords : option (list string).
Variables start_window yesterday : date.

Local Abbreviation run := (process_entries get_paper_comments processed_papers
                         categories excluded_categories keywords start_window
                         yesterday).
Local Abbreviation is_new := (counts_as_new processed_papers categories
                            excluded_categories keywords).

(** C2 (as the code has it). Two identifiers that differ only in the
    version after the final ['v'] have the same base identifier, which is
    the identifier without its version marker when there is no other ['v']
    in it.  The two entries add that one identifier, at most, to the newly
    processed set, and neither counts as new once it is in the loaded store.
    Within a run they are not merged: the fetch stage, which compares
    identifiers with their version, keeps both, and each of them that is
    accepted and not in the loaded store counts as new. *)
Theorem versions_share_base_identifier (b n1 n2 : string) (e1 e2 : entry)
    (st : loop_state) :
  entry_id e1 = b +:+ "v" +:+ n1 ->
  entry_id e2 = b +:+ "v" +:+ n2 ->
  let base := base_arxiv_id (entry_id e1) in
  let st' := run st [e1; e2] in
  base_arxiv_id (entry_id e2) = base
  /\ (has_char "v" b = false -> base = b)
  /\ new_processed_papers st' ⊆ new_processed_papers st ∪ {[base]}
  /\ (base ∈ processed_papers ->
      new_papers_count st' = new_papers_count st
      /\ new_processed_papers st' = new_processed_papers st)
  /\ new_papers_count st'
     = (new_papers_count st + (if is_new e1 then 1 else 0)
        + (if is_new e2 then 1 else 0))%nat
  /\ (n1 <> n2 ->
      forall acc,
        entry_id e1 ∉ all_entry_ids acc ->
        entry_id e2 ∉ all_entry_ids acc ->
        all_entries (add_page acc [e1; e2]) = all_entries acc ++ [e1; e2]).
Proof.
  intros H1 H2 base st'.
  assert (Hb1 : base = before_char "v" b).
  { subst base. rewrite H1. apply base_arxiv_id_versioned. }
  assert (Hb2 : base_arxiv_id (entry_id e2) = base).
  { rewrite Hb1, H2. apply base_arxiv_id_versioned. }
  destruct (process_entries_effect get_paper_comments processed_papers categories
              excluded_categories keywords start_window yesterday [e1; e2] st)
    as (_ & Hn & _ & _ & _ & Hp).
  fold st' in Hn, Hp.
  assert (Hcount : length (filter is_new [e1; e2])
                   = ((if is_new e1 then 1 else 0) + (if is_new e2 then 1 else 0))%nat).
  { rewrite !filter_cons, filter_nil.
    destruct (is_new e1), (is_new e2); repeat case_decide; try done;
      exfalso; auto. }
  split; [done |]. split.
  { intros Hv. rewrite Hb1. by apply before_char_absent. }
  split.
  { rewrite Hp. apply union_mono_l. intros x Hx.
    apply elem_of_list_to_set, list_elem_of_fmap in Hx as (e & -> & He).
    apply list_elem_of_filter in He as [_ He].
    apply elem_of_singleton.
    apply elem_of_cons in He as [-> | He]; [done |].
    apply elem_of_cons in He as [-> | He]; [done |].
    by apply elem_of_nil in He. }
  split.
  { intros Hin.
    assert (Hs1 : is_new e1 = false).
    { unfold counts_as_new, seen_before. fold base.
      rewrite bool_decide_eq_true_2 by done. apply andb_false_r. }
    assert (Hs2 : is_new e2 = false).
    { unfold counts_as_new, seen_before. rewrite Hb2.
      rewrite bool_decide_eq_true_2 by done. apply andb_false_r. }
    rewrite Hn, Hp, Hcount, !filter_cons, filter_nil, Hs1, Hs2.
    repeat case_decide; try done. split; [lia | set_solver]. }
  split; [rewrite Hn, Hcount; lia |].
  intros Hne acc Hf1 Hf2.
  assert (Hids : entry_id e2 <> entry_id e1).
  { rewrite H1, H2. intros Heq. apply Hne. symmetry.
    clear -Heq. induction b as [|c b IH]; [by injection Heq | by injection Heq]. }
  unfold add_page. cbn [foldl]. unfold add_entry at 2.
  rewrite bool_decide_eq_false_2 by done.
  unfold add_entry. cbn [all_entry_ids all_entries].
  rewrite bool_decide_eq_false_2.
  - cbn [all_entries]. by rewrite <- app_assoc.
  - rewrite elem_of_union, elem_of_singleton. intros [Heq | Hin]; [done | by apply Hf2].
Qed.

End VersionFacts.

Lemma versions_share_base_identifier_witness :
  base_arxiv_id (entry_id lensing_v2) = base_arxiv_id (entry_id lensing_v1)
  /\ base_arxiv_id (entry_id lensing_v1) = "2411.00002".
Proof.
  pose proof (versions_share_base_identifier no_comments ∅ None None None
                (mkdate 2024 11 20) (mkdate 2024 11 20) "2411.00002" "1" "2"
                lensing_v1 lensing_v2 (initial_state "") eq_refl eq_refl)
    as (H1 & H2 & _).
  split; [exact H1 | exact (H2 eq_refl)].
Defined.

(** C2 (as stated) fails: two versions of one paper, returned in one run,
    are both kept by the fetch stage and both count as new, while the set of
    newly processed identifiers gets their single base identifier. *)
Lemma two_versions_both_counted_new :
  let o := arxiv_alert elements (one_page [lensing_v1; lensing_v2]) no_comments
             "" "" ∅ (mkdate 2024 11 21) 1 None None None None in
  entry_id lensing_v1 = "2411.00002" +:+ "v" +:+ "1"
  /\ entry_id lensing_v2 = "2411.00002" +:+ "v" +:+ "2"
  /\ (new_papers_count <$> final_state o) = Some 2%nat
  /\ (elements <$> (new_processed_papers <$> final_state o)) = Some ["2411.00002"].
Proof. vm_compute. done. Qed.

(** An identifier with a ['v'] before its version marker: the base
    identifier stops at that first ['v']. *)
Example base_arxiv_id_old_style :
  base_arxiv_id "solv-int/9901001v1" = "sol".
Proof. reflexivity. Qed.

(** * Further properties of the code *)

(** ** Query construction *)

Section QueryFacts.
Import PyStr.

Lemma join_cons (sep x : string) (l : list string) :
  l <> [] -> join sep (x :: l) = x +:+ sep +:+ join sep l.
Proof. by destruct l. Qed.

(** Every element of a joined list occurs in the result. *)
Lemma contains_join (sep x : string) (l : list string) :
  x ∈ l -> contains x (join sep l) = true.
Proof.
  induction l as [|y l IH]; intros Hin; [by apply elem_of_nil in Hin |].
  destruct l as [|z l].
  - apply list_elem_of_singleton in Hin as ->. apply contains_refl.
  - rewrite join_cons by done. apply elem_of_cons in Hin as [-> | Hin].
    + apply contains_app_l, contains_refl.
    + apply contains_app_r, contains_app_r, IH, Hin.
Qed.

(** The last element of a joined list ends the result. *)
Lemma join_snoc (sep x : string) (l : list string) :
  exists pre, join sep (l ++ [x]) = pre +:+ x.
Proof.
  induction l as [|y l [pre IH]].
  - by exists "".
  - cbn [app]. rewrite join_cons by (by destruct l). rewrite IH.
    exists (y +:+ sep +:+ pre). by rewrite !app_assoc_str.
Qed.

Lemma contains_group (x : string) (l : list string) :
  x ∈ l -> contains x ("(" +:+ join " OR " l +:+ ")") = true.
Proof.
  intros Hin. apply contains_app_r, contains_app_l. by apply contains_join.
Qed.

(** With nothing to search for the query is the wildcard; an empty list
    counts as no list, and a date range needs both of its ends. *)
Theorem build_arxiv_query_wildcard
    (categories keywords authors : option (list string))
    (start_date end_date : option date) :
  given categories = [] -> given keywords = [] -> given authors = [] ->
  start_date = None \/ end_date = None ->
  build_arxiv_query categories keywords authors start_date end_date = "*".
Proof.
  intros Hc Hk Ha Hd. unfold build_arxiv_query, query_parts.
  rewrite Hc, Hk, Ha. cbn [nonempty app].
  destruct Hd as [-> | ->]; [done |]. by destruct start_date.
Qed.

Lemma build_arxiv_query_wildcard_witness :
  build_arxiv_query (Some []) None (Some []) (Some (mkdate 2024 11 20)) None = "*".
Proof.
  apply build_arxiv_query_wildcard; [reflexivity | reflexivity | reflexivity |].
  by right.
Defined.

(** Whatever else is asked for, each category, keyword and author that is
    given occurs in the query in its clause, a keyword once for the title
    and once for the abstract; and a date range that is given closes the
    query, from 00:00 of its first day to 23:59 of its last. *)
Theorem build_arxiv_query_mentions_all
    (categories keywords authors : option (list string))
    (start_date end_date : option date) :
  let query := build_arxiv_query categories keywords authors start_date end_date in
  (forall cat, cat ∈ given categories -> contains ("cat:" +:+ cat) query = true)
  /\ (forall kw, kw ∈ given keywords ->
                 contains ("(ti:" +:+ kw +:+ " OR abs:" +:+ kw +:+ ")") query = true)
  /\ (forall auth, auth ∈ given authors -> contains ("au:" +:+ auth) query = true)
  /\ (forall s e, start_date = Some s -> end_date = Some e ->
                  exists pre,
                    query = pre +:+ "submittedDate:[" +:+ (strftime_Ymd s +:+ "0000")
                              +:+ "+TO+" +:+ (strftime_Ymd e +:+ "2359") +:+ "]").
Proof.
  intros query. subst query. unfold build_arxiv_query.
  set (parts := query_parts categories keywords authors start_date end_date).
  assert (Hpart : forall x p, p ∈ parts -> contains x p = true ->
                              contains x (if nonempty parts
                                          then join "+AND+" parts else "*") = true).
  { intros x p Hp Hx. destruct parts as [|p0 parts']; [by apply elem_of_nil in Hp |].
    cbn [nonempty]. eapply contains_trans; [exact Hx |]. by apply contains_join. }
  split; [|split; [|split]].
  - intros cat Hin.
    apply (Hpart _ ("(" +:+ join " OR " ((fun cat => "cat:" +:+ cat) <$> given categories)
                      +:+ ")")).
    + subst parts. unfold query_parts.
      destruct (given categories); [by apply elem_of_nil in Hin |].
      cbn [nonempty]. apply elem_of_app. left. by left.
    + apply contains_group, list_elem_of_fmap. by exists cat.
  - intros kw Hin.
    apply (Hpart _ ("(" +:+ join " OR "
                      ((fun kw => "(ti:" +:+ kw +:+ " OR abs:" +:+ kw +:+ ")")
                         <$> given keywords) +:+ ")")).
    + subst parts. unfold query_parts.
      destruct (given keywords); [by apply elem_of_nil in Hin |].
      cbn [nonempty]. apply elem_of_app. right. apply elem_of_app. left. by left.
    + apply contains_group, list_elem_of_fmap. by exists kw.
  - intros auth Hin.
    apply (Hpart _ ("(" +:+ join " OR " ((fun auth => "au:" +:+ auth) <$> given authors)
                      +:+ ")")).
    + subst parts. unfold query_parts.
      destruct (given authors); [by apply elem_of_nil in Hin |].
      cbn [nonempty]. apply elem_of_app. right. apply elem_of_app. right.
      apply elem_of_app. left. by left.
    + apply contains_group, list_elem_of_fmap. by exists auth.
  - intros s e -> ->. subst parts. unfold query_parts.
    match goal with
    | |- context [?a ++ ?b ++ ?c ++ [?d]] =>
        replace (a ++ b ++ c ++ [d]) with ((a ++ b ++ c) ++ [d])
          by (by rewrite <- !app_assoc);
        generalize (a ++ b ++ c)
    end.
    intros l. replace (nonempty (l ++ _)) with true by (by destruct l).
    apply join_snoc.
Qed.

Lemma build_arxiv_query_mentions_all_witness :
  contains ("(ti:" +:+ "JWST" +:+ " OR abs:" +:+ "JWST" +:+ ")")
    (build_arxiv_query (Some ["astro-ph.ga"]) (Some ["galaxy evolution"; "JWST"])
       None (Some (mkdate 2024 11 18)) (Some (mkdate 2024 11 19)))
  = true.
Proof.
  refine (proj1 (proj2 (build_arxiv_query_mentions_all (Some ["astro-ph.ga"])
                          (Some ["galaxy evolution"; "JWST"]) None
                          (Some (mkdate 2024 11 18)) (Some (mkdate 2024 11 19))))
            "JWST" _).
  right. left.
Defined.

End QueryFacts.

(** ** Keyword matching *)

Section KeywordMore.
Import PyStr.

Lemma find_matching_keywords_nil (title abstract : string) :
  find_matching_keywords title abstract [] = [].
Proof. reflexivity. Qed.

Lemma find_matching_keywords_concat (title abstract : string) (keywords : list string) :
  find_matching_keywords title abstract keywords
  = concat (match_keyword (lower title) (lower abstract) <$> keywords).
Proof. unfold find_matching_keywords. by rewrite foldl_app_flat. Qed.

Lemma match_keyword_shape (title_lower abstract_lower keyword annotation : string) :
  annotation ∈ match_keyword title_lower abstract_lower keyword ->
  exists place, place ∈ found_places
                /\ annotation = keyword +:+ " (" +:+ place +:+ ")".
Proof.
  unfold match_keyword, found_in, found_places.
  destruct (contains (lower (strip dquote keyword)) title_lower),
    (contains (lower (strip dquote keyword)) abstract_lower);
    cbn [orb app join]; intros Hin;
    try (by apply elem_of_nil in Hin);
    apply list_elem_of_singleton in Hin as ->.
  - exists "title, abstract". split; [by right; right; left | done].
  - exists "title". split; [by left | done].
  - exists "abstract". split; [by right; left | done].
Qed.

Lemma elem_of_concat {A} (x : A) (ls : list (list A)) :
  x ∈ concat ls -> exists l, x ∈ l /\ l ∈ ls.
Proof.
  induction ls as [|l ls IH]; cbn [concat]; intros Hin.
  - by apply elem_of_nil in Hin.
  - apply elem_of_app in Hin as [Hin | Hin].
    + exists l. split; [done | by left].
    + destruct (IH Hin) as (l' & ? & ?). exists l'. split; [done | by right].
Qed.

(** The matches of a list of keywords are those of its parts, in order;
    there are never more of them than keywords, and each one is a keyword
    of the list followed by the place where it was found. *)
Theorem find_matching_keywords_by_keyword
    (title abstract : string) (keywords1 keywords2 : list string) :
  find_matching_keywords title abstract (keywords1 ++ keywords2)
  = find_matching_keywords title abstract keywords1
      ++ find_matching_keywords title abstract keywords2
  /\ (length (find_matching_keywords title abstract keywords1)
      <= length keywords1)%nat
  /\ (forall annotation,
         annotation ∈ find_matching_keywords title abstract keywords1 ->
         exists keyword place,
           keyword ∈ keywords1 /\ place ∈ found_places
           /\ annotation = keyword +:+ " (" +:+ place +:+ ")").
Proof.
  rewrite !find_matching_keywords_concat. split; [|split].
  - by rewrite fmap_app, concat_app.
  - induction keywords1 as [|k ks IH]; [done |].
    rewrite fmap_cons. cbn [concat]. rewrite length_app. cbn [length].
    assert (length (match_keyword (lower title) (lower abstract) k) <= 1)%nat.
    { unfold match_keyword. by case_match; cbn; lia. }
    lia.
  - intros annotation Hin. apply elem_of_concat in Hin as (l & Hin & Hl).
    apply list_elem_of_fmap in Hl as (k & -> & Hk).
    apply match_keyword_shape in Hin as (place & Hp & ->). by exists k, place.
Qed.

Lemma startswith_empty (s : string) : startswith "" s = true.
Proof. by destruct s. Qed.

Lemma contains_empty (s : string) : contains "" s = true.
Proof. apply contains_spec. by exists "", s. Qed.

Lemma strip_only_quotes (c : ascii) (n : nat) : strip c (repeat_char c n) = "".
Proof.
  unfold strip.
  replace (lstrip c (repeat_char c n)) with "".
  - reflexivity.
  - induction n as [|n IH]; [done |]. cbn [repeat_char lstrip].
    by rewrite Ascii.eqb_refl.
Qed.

(** A keyword that is empty, or made of double quotes only, matches every
    paper, in the title and in the abstract. *)
Theorem find_matching_keywords_blank_keyword
    (title abstract : string) (n : nat) :
  find_matching_keywords title abstract [repeat_char dquote n]
  = [repeat_char dquote n +:+ " (title, abstract)"].
Proof.
  rewrite find_matching_keywords_concat. cbn [fmap list_fmap concat].
  unfold match_keyword, found_in. rewrite strip_only_quotes.
  cbn [lower]. rewrite !contains_empty. reflexivity.
Qed.

Lemma lower_char_idem (c : ascii) : lower_char (lower_char c) = lower_char c.
Proof. destruct c as [[] [] [] [] [] [] [] []]; reflexivity. Qed.

Lemma lower_char_quote (c : ascii) :
  Ascii.eqb (lower_char c) dquote = Ascii.eqb c dquote.
Proof. destruct c as [[] [] [] [] [] [] [] []]; reflexivity. Qed.

Lemma lower_idem (s : string) : lower (lower s) = lower s.
Proof.
  induction s as [|c s IH]; [done |]. cbn [lower]. by rewrite lower_char_idem, IH.
Qed.

Lemma lower_lstrip (s : string) : lower (lstrip dquote s) = lstrip dquote (lower s).
Proof.
  induction s as [|c s IH]; [done |]. cbn [lstrip lower].
  rewrite lower_char_quote. by destruct (Ascii.eqb c dquote).
Qed.

Lemma lower_rstrip (s : string) : lower (rstrip dquote s) = rstrip dquote (lower s).
Proof.
  induction s as [|c s IH]; [done |]. cbn [lower]. rewrite !rstrip_cons, <- IH.
  rewrite lower_char_quote.
  destruct (rstrip dquote s); cbn [lower]; [by destruct (Ascii.eqb c dquote) | done].
Qed.

Lemma lower_strip (s : string) : lower (strip dquote s) = strip dquote (lower s).
Proof. unfold strip. by rewrite lower_rstrip, lower_lstrip. Qed.

(** Whether a keyword matches depends on the keyword, the title and the
    abstract only up to letter case. *)
Theorem find_matching_keywords_ignores_case
    (title title' abstract abstract' keyword keyword' : string) :
  lower title = lower title' ->
  lower abstract = lower abstract' ->
  lower keyword = lower keyword' ->
  (find_matching_keywords title abstract [keyword] = []
   <-> find_matching_keywords title' abstract' [keyword'] = []).
Proof.
  intros Ht Ha Hk. rewrite !find_matching_keywords_concat.
  cbn [fmap list_fmap concat]. rewrite !app_nil_r.
  unfold match_keyword. rewrite !lower_strip, Ht, Ha, Hk.
  by destruct (contains _ _ || contains _ _).
Qed.

Lemma find_matching_keywords_ignores_case_witness :
  find_matching_keywords "Dust in DISCS" "We model dust." ["DUST"] = []
  <-> find_matching_keywords "dust in discs" "WE MODEL DUST." ["Dust"] = [].
Proof.
  apply find_matching_keywords_ignores_case; reflexivity.
Defined.

End KeywordMore.

(** ** Fetching *)

Section BatchFacts.

Lemma chunks_concat {A} (n k : nat) (l : list A) :
  concat ((fun i => take n (drop (n * i) l)) <$> seq 0 k) = take (n * k) l.
Proof.
  induction k as [|k IH].
  - by rewrite Nat.mul_0_r, take_0.
  - rewrite seq_S, fmap_app, concat_app, IH. cbn [fmap list_fmap concat].
    rewrite app_nil_r, Nat.add_0_l, take_take_drop. f_equal. lia.
Qed.

(** Batching loses no keyword and changes no order: the batches, put end to
    end, are the keyword list.  No batch has more than 15 keywords; when
    there are keywords no batch is empty, and when there are none there is
    the single batch without keywords.  There are as many batches as 15
    goes into the number of keywords, rounded up, and at least one. *)
Theorem keyword_batches_partition (keywords : option (list string)) :
  concat (batch_keywords <$> keyword_batches keywords) = given keywords
  /\ Forall (fun batch => (length (batch_keywords batch) <= 15)%nat)
       (keyword_batches keywords)
  /\ (given keywords <> [] ->
      Forall (fun batch => exists kws, batch = Some kws /\ kws <> [])
        (keyword_batches keywords))
  /\ (given keywords = [] -> keyword_batches keywords = [None])
  /\ length (keyword_batches keywords)
     = Nat.max 1 ((length (given keywords) + 14) / 15).
Proof.
  unfold keyword_batches. set (kws := given keywords).
  destruct (15 <? length kws)%nat eqn:Hlen.
  - apply Nat.ltb_lt in Hlen.
    pose proof (Nat.div_mod_eq (length kws + 14) 15) as Hdiv.
    pose proof (Nat.mod_upper_bound (length kws + 14) 15 ltac:(lia)) as Hmod.
    set (k := ((length kws + 14) / 15)%nat) in *.
    split; [|split; [|split; [|split]]].
    + transitivity (take (15 * k) kws); [|apply take_ge; lia].
      rewrite <- chunks_concat, <- list_fmap_compose. reflexivity.
    + apply Forall_fmap, Forall_forall. intros i _. cbn. rewrite length_take. lia.
    + intros _. apply Forall_fmap, Forall_forall. intros i Hi.
      apply elem_of_seq in Hi. cbn. eexists. split; [done |].
      intros Hnil. apply (f_equal length) in Hnil.
      rewrite length_take, length_drop in Hnil. cbn [length] in Hnil. lia.
    + intros Hnil. rewrite Hnil in Hlen. cbn in Hlen. lia.
    + rewrite length_fmap, length_seq. lia.
  - apply Nat.ltb_ge in Hlen.
    destruct kws as [|kw kws'] eqn:E; cbn [nonempty].
    + split; [done |]. split; [constructor; [cbn; lia | constructor] |].
      split; [done |]. split; done.
    + assert (Hone : ((length (kw :: kws') + 14) / 15 = 1)%nat).
      { pose proof (Nat.div_mod_eq (length (kw :: kws') + 14) 15) as Hdiv.
        pose proof (Nat.mod_upper_bound (length (kw :: kws') + 14) 15 ltac:(lia)).
        cbn [length] in *. lia. }
      rewrite Hone. cbn [fmap list_fmap concat batch_keywords given].
      rewrite app_nil_r. split; [done |].
      split; [constructor; [done | constructor] |].
      split; [intros _; constructor; [by eexists | constructor] |].
      split; done.
Qed.

Lemma keyword_batches_partition_witness :
  Forall (fun batch => exists kws, batch = Some kws /\ kws <> [])
    (keyword_batches (Some keywords_astroph)).
Proof.
  apply (keyword_batches_partition (Some keywords_astroph)). discriminate.
Defined.

End BatchFacts.

Section FetchInvariants.

Variable arxiv_api : string -> Z -> Z -> option (list entry).

Lemma add_page_nil (acc : fetched) : add_page acc [] = acc.
Proof. reflexivity. Qed.

Lemma add_page_snoc (acc : fetched) (page : list entry) (e : entry) :
  add_page acc (page ++ [e]) = add_entry (add_page acc page) e.
Proof. unfold add_page. by rewrite foldl_app. Qed.

Lemma add_entry_wf (acc : fetched) (e : entry) :
  fetched_wf acc -> fetched_wf (add_entry acc e).
Proof.
  intros [Hnd Hids]. unfold add_entry.
  destruct (bool_decide (entry_id e ∈ all_entry_ids acc)) eqn:E; [done |].
  apply bool_decide_eq_false in E. unfold fetched_wf. cbn [all_entries all_entry_ids].
  rewrite fmap_app. cbn [fmap list_fmap]. split.
  - apply NoDup_app. split; [done |]. split; [|apply NoDup_singleton].
    intros x Hx Hx'. apply list_elem_of_singleton in Hx' as ->.
    apply E. rewrite Hids. by apply elem_of_list_to_set.
  - rewrite list_to_set_app_L, <- Hids. cbn [list_to_set].
    rewrite (right_id_L ∅ (∪)). apply (comm_L (∪)).
Qed.

Lemma add_entry_from (acc : fetched) (e x : entry) :
  x ∈ all_entries (add_entry acc e) -> x ∈ all_entries acc \/ x = e.
Proof.
  unfold add_entry. case_match; [by left |]. cbn [all_entries].
  rewrite elem_of_app, list_elem_of_singleton. tauto.
Qed.

Lemma add_page_wf (page : list entry) (acc : fetched) :
  fetched_wf acc -> fetched_wf (add_page acc page).
Proof.
  revert acc. induction page as [|e page IH]; intros acc H; [done |].
  rewrite add_page_cons. by apply IH, add_entry_wf.
Qed.

Lemma add_page_from (page : list entry) (acc : fetched) (x : entry) :
  x ∈ all_entries (add_page acc page) -> x ∈ all_entries acc \/ x ∈ page.
Proof.
  revert acc. induction page as [|e page IH]; intros acc H; [by left |].
  rewrite add_page_cons in H. apply IH in H as [H | H].
  - apply add_entry_from in H as [H | ->]; [by left | right; by left].
  - right. by right.
Qed.

(** A property of the entries kept so far that every page preserves holds
    when the loop of a batch ends. *)
Lemma paginate_preserves (P : fetched -> Prop) (fetch_page : Z -> option (list entry))
    (cap : Z) :
  (forall acc start page, P acc -> fetch_page start = Some page ->
                          P (add_page acc page)) ->
  forall (n : nat) (start : Z) (st : batch_state),
    (Z.to_nat (cap - start) <= n)%nat ->
    P (so_far st) -> P (so_far (paginate fetch_page cap start st)).
Proof.
  intros Hstep. induction n as [|n IH]; intros start st Hn HP; rewrite paginate_step.
  - by case_decide; [lia |].
  - case_decide; [|done].
    assert (Hafter : P (so_far (after_request start (fetch_page start) st))).
    { unfold after_request. cbn [so_far].
      destruct (fetch_page start) as [page|] eqn:E; cbn [given]; [|done].
      by apply (Hstep _ start). }
    destruct (full_page (fetch_page start)); [|done].
    apply IH; [unfold max_results_per_call; lia | done].
Qed.

Lemma fetch_all_preserves (P : fetched -> Prop)
    (categories keywords authors : option (list string))
    (api_start_window yesterday : date) (cap : Z) :
  (forall acc search_query start max_results page,
      P acc -> arxiv_api search_query start max_results = Some page ->
      P (add_page acc page)) ->
  P (mkfetched [] ∅) ->
  P (fetch_all arxiv_api categories keywords authors api_start_window yesterday cap).
Proof.
  intros Hstep Hinit. unfold fetch_all.
  generalize (keyword_batches keywords). intros batches.
  revert Hinit. generalize (mkfetched [] ∅).
  induction batches as [|b batches IH]; intros acc Hacc; [done |].
  cbn [foldl]. apply IH. unfold fetch_keyword_batch.
  apply (paginate_preserves P _ cap) with (n := Z.to_nat (cap - 0)); [|lia | done].
  intros acc' start page Hacc' Hpage. unfold fetch_arxiv_batch in Hpage.
  by eapply Hstep.
Qed.

(** The fetch stage keeps no two entries with the same identifier (version
    included), [all_entry_ids] is exactly the set of the identifiers kept,
    and every entry kept was in the answer to one of the requests. *)
Theorem fetch_all_distinct_and_served
    (categories keywords authors : option (list string))
    (api_start_window yesterday : date) (cap : Z) :
  let fetched :=
    fetch_all arxiv_api categories keywords authors api_start_window yesterday cap in
  NoDup (entry_id <$> all_entries fetched)
  /\ all_entry_ids fetched = list_to_set (entry_id <$> all_entries fetched)
  /\ (forall e, e ∈ all_entries fetched -> served arxiv_api e).
Proof.
  cbn zeta.
  assert (Hwf : fetched_wf (fetch_all arxiv_api categories keywords authors
                              api_start_window yesterday cap)).
  { apply (fetch_all_preserves fetched_wf).
    - intros acc _ _ _ page Hacc _. by apply add_page_wf.
    - split; [constructor | done]. }
  destruct Hwf as [Hnd Hids]. split; [done |]. split; [done |].
  apply (fetch_all_preserves (fun acc => forall e, e ∈ all_entries acc ->
                                                     served arxiv_api e)).
  - intros acc q start m page Hacc Hpage e He.
    apply add_page_from in He as [He | He]; [by apply Hacc |].
    by exists q, start, m, page.
  - intros e He. by apply elem_of_nil in He.
Qed.

(** In [arxiv_alert], where a number of days below 1 counts as 1, every
    keyword batch sends its first request at offset 0, and sends between one
    and ten requests. *)
Theorem every_batch_sends_a_request
    (categories authors keyword_batch : option (list string))
    (api_start_window yesterday : date) (amount_of_days : Z) (acc : fetched) :
  let batch :=
    fetch_keyword_batch arxiv_api categories authors api_start_window yesterday
      (max_total_results (if amount_of_days <? 1 then 1 else amount_of_days))
      acc keyword_batch in
  (1 <= page_num batch <= 10)%nat /\ head (requests batch) = Some 0.
Proof.
  cbn zeta. unfold fetch_keyword_batch.
  set (cap := max_total_results (if amount_of_days <? 1 then 1 else amount_of_days)).
  assert (Hcap : 200 <= cap <= 2000).
  { subst cap. unfold max_total_results. destruct (Z.ltb_spec amount_of_days 1); lia. }
  match goal with
  | |- context [paginate ?f cap 0 ?st] =>
      destruct (paginate_requests f cap (Z.to_nat (cap - 0)) 0 st ltac:(lia))
        as (offs & Hr & Hp & Ho & _ & _ & _ & He & Hb)
  end.
  rewrite Hr, Hp. cbn [requests page_num app Nat.add].
  destruct offs as [|o offs'].
  - specialize (He eq_refl). lia.
  - split.
    + split; [cbn [length]; lia |].
      assert (Z.to_nat ((cap - 0 + (max_results_per_call - 1)) / max_results_per_call)
              <= 10)%nat; [|lia].
      unfold max_results_per_call. clear -Hcap.
      Z.to_euclidean_division_equations. lia.
    + rewrite Ho. reflexivity.
Qed.

End FetchInvariants.

(** ** A run as a whole *)

Section RunFacts.
Import PyStr.

Variable set_to_list : gset string -> list string.
Variable arxiv_api : string -> Z -> Z -> option (list entry).
Variable get_paper_comments : string -> string.
Variables style_block mathjax_block : string.

Local Abbreviation alert := (arxiv_alert set_to_list arxiv_api get_paper_comments
                               style_block mathjax_block).



End RunFacts.


(** ** The counters of the loop *)

Section CounterFacts.

Variable get_paper_comments : string -> string.
Variables categories excluded_categories keywords : option (list string).
Variables start_window yesterday : date.

Local Abbreviation run := (fun processed_papers =>
  process_entries get_paper_comments processed_papers categories excluded_categories
    keywords start_window yesterday).

Lemma size_list_to_set_le (l : list string) :
  (size (list_to_set l : gset string) <= length l)%nat.
Proof.
  induction l as [|x l IH]; cbn [list_to_set length].
  - by rewrite size_empty.
  - rewrite size_union_alt, size_singleton.
    assert (size (list_to_set l ∖ {[x]} : gset string) <= size (list_to_set l : gset string))%nat
      by (apply subseteq_size; set_solver).
    lia.
Qed.

Lemma process_entry_tally (processed_papers : gset string) (st : loop_state)
    (e : entry) :
  let st' := process_entry get_paper_comments processed_papers categories
               excluded_categories keywords start_window yesterday st e in
  (shown_papers_count st' + filtered_papers_count st' + no_keywords_count st'
   = S (shown_papers_count st + filtered_papers_count st + no_keywords_count st))%nat.
Proof.
  unfold process_entry.
  destruct (filter_chain categories excluded_categories keywords e);
    destruct (bool_decide (base_arxiv_id (entry_id e) ∈ processed_papers));
    cbn -[String.append entry_html union]; lia.
Qed.

(** Every fetched entry is accounted for once: it is shown, or counted as
    filtered by category, or counted as filtered by keywords.  Of the
    entries shown, those counted as new are never more than the total, so
    the number of seen-before entries in the summary is their difference;
    nothing is ever counted as filtered by date; and the identifiers added
    to the store are never more than the papers counted as new. *)
Theorem loop_counters_add_up (processed_papers : gset string) (head : string)
    (es : list entry) :
  let final := run processed_papers (initial_state head) es in
  (shown_papers_count final + filtered_papers_count final + no_keywords_count final
   = length es)%nat
  /\ (new_papers_count final <= shown_papers_count final)%nat
  /\ (shown_papers_count final - new_papers_count final
      = length (filter (fun e => accepted categories excluded_categories keywords e
                                 && seen_before processed_papers e) es))%nat
  /\ (already_processed_count final <= length es)%nat
  /\ date_filtered_count final = 0%nat
  /\ (size (new_processed_papers final) <= new_papers_count final)%nat.
Proof.
  cbn zeta.
  destruct (process_entries_effect get_paper_comments processed_papers categories
              excluded_categories keywords start_window yesterday es
              (initial_state head)) as (_ & Hn & Hs & Ha & Hd & Hp).
  cbn [initial_state new_papers_count shown_papers_count already_processed_count
       date_filtered_count new_processed_papers Nat.add] in Hn, Hs, Ha, Hd, Hp.
  assert (Hsplit : (length (filter (accepted categories excluded_categories keywords) es)
                    = length (filter (counts_as_new processed_papers categories
                                        excluded_categories keywords) es)
                      + length (filter (fun e => accepted categories excluded_categories
                                                   keywords e
                                                 && seen_before processed_papers e) es))%nat).
  { clear. induction es as [|e l IH]; [done |].
    destruct (accepted categories excluded_categories keywords e) eqn:Ea;
      destruct (seen_before processed_papers e) eqn:Es;
      repeat first
        [ rewrite filter_cons_True
            by (try unfold counts_as_new; rewrite ?Ea, ?Es; exact I)
        | rewrite filter_cons_False
            by (try unfold counts_as_new; rewrite ?Ea, ?Es; cbn; tauto) ];
      cbn [length]; lia. }
  split.
  - clear Hn Hs Ha Hd Hp Hsplit.
    assert (Hgen : forall l st,
               (shown_papers_count (run processed_papers st l)
                + filtered_papers_count (run processed_papers st l)
                + no_keywords_count (run processed_papers st l)
                = shown_papers_count st + filtered_papers_count st
                  + no_keywords_count st + length l)%nat).
    { induction l as [|e l IH]; intros st; [cbn; lia |].
      rewrite process_entries_cons, IH.
      pose proof (process_entry_tally processed_papers st e) as Ht.
      cbn zeta in Ht. rewrite Ht. cbn [length]. lia. }
    rewrite Hgen. cbn [initial_state shown_papers_count filtered_papers_count
                          no_keywords_count]. lia.
  - rewrite Hn, Hs, Hd, Hp, Hsplit. split; [lia |]. split; [lia |].
    split.
    { rewrite Ha. apply length_filter. }
    split; [done |].
    rewrite (left_id_L ∅ (∪)).
    etransitivity; [apply size_list_to_set_le |]. by rewrite length_fmap.
Qed.

End CounterFacts.

Section StoreIndependence.

Variable get_paper_comments : string -> string.
Variables categories excluded_categories keywords : option (list string).
Variables start_window yesterday : date.

Lemma process_entry_filter_view (processed processed' : gset string)
    (st st' : loop_state) (e : entry) :
  filter_view st = filter_view st' ->
  filter_view (process_entry get_paper_comments processed categories
                 excluded_categories keywords start_window yesterday st e)
  = filter_view (process_entry get_paper_comments processed' categories
                   excluded_categories keywords start_window yesterday st' e).
Proof.
  unfold filter_view, process_entry. intros [= Hs Hf Hn Hl].
  destruct (filter_chain categories excluded_categories keywords e);
    destruct (bool_decide (base_arxiv_id (entry_id e) ∈ processed));
    destruct (bool_decide (base_arxiv_id (entry_id e) ∈ processed'));
    cbn -[String.append entry_html union]; by rewrite Hs, Hf, Hn, Hl.
Qed.

Lemma process_entries_filter_view (processed processed' : gset string)
    (es : list entry) (st st' : loop_state) :
  filter_view st = filter_view st' ->
  filter_view (process_entries get_paper_comments processed categories
                 excluded_categories keywords start_window yesterday st es)
  = filter_view (process_entries get_paper_comments processed' categories
                   excluded_categories keywords start_window yesterday st' es).
Proof.
  revert st st'. induction es as [|e l IH]; intros st st' Hview; [exact Hview |].
  rewrite !process_entries_cons. apply IH. by apply process_entry_filter_view.
Qed.

(** The store never decides what is shown: two runs over the same entries
    from different stores show the same number of entries, reject the same
    numbers by category and by keywords, and write the same log. *)
Theorem store_never_filters (processed processed' : gset string) (head : string)
    (es : list entry) :
  filter_view (process_entries get_paper_comments processed categories
                 excluded_categories keywords start_window yesterday
                 (initial_state head) es)
  = filter_view (process_entries get_paper_comments processed' categories
                   excluded_categories keywords start_window yesterday
                   (initial_state head) es).
Proof. by apply process_entries_filter_view. Qed.

End StoreIndependence.

(** ** What is saved *)

Section SavedStore.

Variable set_to_list : gset string -> list string.
Hypothesis set_to_list_perm : forall s, set_to_list s ≡ₚ elements s.
Variable arxiv_api : string -> Z -> Z -> option (list entry).
Variable get_paper_comments : string -> string.
Variables style_block mathjax_block : string.

Local Abbreviation alert := (arxiv_alert set_to_list arxiv_api get_paper_comments
                               style_block mathjax_block).
Local Abbreviation alert_on_file :=
  (arxiv_alert_on_file set_to_list arxiv_api get_paper_comments style_block
     mathjax_block).

Lemma clean_subseteq (s : gset string) :
  clean_old_processed_papers set_to_list s ⊆ s.
Proof.
  destruct (decide (size s <= 1000)%nat).
  - by rewrite clean_small.
  - apply clean_large; [done | lia].
Qed.

(** Pruning twice is pruning once. *)
Theorem clean_old_processed_papers_idempotent (s : gset string) :
  clean_old_processed_papers set_to_list (clean_old_processed_papers set_to_list s)
  = clean_old_processed_papers set_to_list s.
Proof. apply clean_small. by apply clean_size. Qed.

Lemma load_save (s : gset string) :
  load_processed_papers (save_processed_papers set_to_list s) = Some s.
Proof.
  unfold load_processed_papers, save_processed_papers. f_equal.
  apply set_eq. intros x. rewrite elem_of_list_to_set.
  apply (set_to_list_facts set_to_list set_to_list_perm).
Qed.

Lemma alert_on_file_loaded (file : store_file) (loaded : gset string) (today : date)
    (amount_of_days : Z)
    (categories keywords authors excluded_categories : option (list string)) :
  load_processed_papers file = Some loaded ->
  let o := alert loaded today amount_of_days categories keywords authors
             excluded_categories in
  exists file',
    alert_on_file file today amount_of_days categories keywords authors
      excluded_categories = Some (o, file')
    /\ load_processed_papers file' = Some (store_after loaded o).
Proof.
  intros Hload o. unfold arxiv_alert_on_file. rewrite Hload. fold o.
  destruct o as [html | html st saved]; eexists; (split; [reflexivity |]);
    cbn [store_after]; [exact Hload | apply load_save].
Qed.

Lemma alert_on_file_raises (file : store_file) (today : date) (amount_of_days : Z)
    (categories keywords authors excluded_categories : option (list string)) :
  load_processed_papers file = None ->
  alert_on_file file today amount_of_days categories keywords authors
    excluded_categories = None.
Proof. intros Hload. unfold arxiv_alert_on_file. by rewrite Hload. Qed.

(** Loading what was saved gives the set back, in whatever order it was
    written.  A missing file and a file that is not valid JSON load as the
    empty set; a file on which loading raises another exception is not
    caught, and a run on it ends before it requests or writes anything.
    After a run on a file that loads, the file loads as the store the run
    ends with. *)
Theorem store_file_round_trip :
  (forall s, load_processed_papers (save_processed_papers set_to_list s) = Some s)
  /\ load_processed_papers NoFile = Some ∅
  /\ load_processed_papers NotJson = Some ∅
  /\ load_processed_papers Unloadable = None
  /\ (forall file today amount_of_days categories keywords authors
             excluded_categories,
        load_processed_papers file = None ->
        alert_on_file file today amount_of_days categories keywords authors
          excluded_categories = None)
  /\ (forall file loaded today amount_of_days categories keywords authors
             excluded_categories,
        load_processed_papers file = Some loaded ->
        let o := alert loaded today amount_of_days categories keywords authors
                   excluded_categories in
        exists file',
          alert_on_file file today amount_of_days categories keywords authors
            excluded_categories = Some (o, file')
          /\ load_processed_papers file' = Some (store_after loaded o)).
Proof.
  split; [exact load_save |]. do 3 (split; [done |]).
  split; [exact alert_on_file_raises | exact alert_on_file_loaded].
Qed.

Lemma added_summary (processed_papers : gset string) (today : date)
    (amount_of_days : Z)
    (categories keywords authors excluded_categories : option (list string)) :
  let es := fetched_entries arxiv_api today amount_of_days categories keywords
              authors in
  let o := alert processed_papers today amount_of_days categories keywords authors
             excluded_categories in
  added o = (if nonempty es
             then new_ids processed_papers categories excluded_categories keywords es
             else ∅)
  /\ store_after processed_papers o
     = (if nonempty es
        then clean_old_processed_papers set_to_list (processed_papers ∪ added o)
        else processed_papers).
Proof.
  intros es o.
  destruct (arxiv_alert_summary set_to_list arxiv_api get_paper_comments style_block
              mathjax_block processed_papers today amount_of_days categories keywords
              authors excluded_categories) as (_ & Hp & Hs).
  fold es o in Hp, Hs. rewrite Hs. clear Hs.
  destruct (nonempty es), o; cbn [final_state fmap option_fmap option_map added] in *;
    try discriminate; [|done].
  injection Hp as Hp. by rewrite Hp.
Qed.

Lemma added_accepted (processed_papers : gset string) (today : date)
    (amount_of_days : Z)
    (categories keywords authors excluded_categories : option (list string))
    (b : string) :
  b ∈ added (alert processed_papers today amount_of_days categories keywords authors
               excluded_categories) ->
  (b ∉ processed_papers)
  /\ exists e, e ∈ fetched_entries arxiv_api today amount_of_days categories
                     keywords authors
               /\ accepted categories excluded_categories keywords e = true
               /\ base_arxiv_id (entry_id e) = b.
Proof.
  destruct (added_summary processed_papers today amount_of_days categories keywords
              authors excluded_categories) as [-> _].
  destruct (nonempty _); [|intros H; by apply elem_of_empty in H].
  unfold new_ids. intros Hb.
  apply elem_of_list_to_set, list_elem_of_fmap in Hb as (e & -> & He).
  apply list_elem_of_filter in He as [Hnew He].
  apply Is_true_true in Hnew. unfold counts_as_new, seen_before in Hnew.
  apply andb_true_iff in Hnew as [Hacc Hns].
  apply negb_true_iff, bool_decide_eq_false in Hns.
  split; [done |]. by exists e.
Qed.

Lemma saved_store_small (processed_papers : gset string) (today : date)
    (amount_of_days : Z)
    (categories keywords authors excluded_categories : option (list string)) :
  let o := alert processed_papers today amount_of_days categories keywords authors
             excluded_categories in
  (size (processed_papers ∪ added o) <= 1000)%nat ->
  store_after processed_papers o = processed_papers ∪ added o.
Proof.
  intros o Hsmall.
  destruct (added_summary processed_papers today amount_of_days categories keywords
              authors excluded_categories) as [Ha Hs].
  fold o in Ha, Hs. rewrite Hs. destruct (nonempty _).
  - by apply clean_small.
  - rewrite Ha. clear. set_solver.
Qed.

(** The store a run leaves holds nothing but identifiers it loaded and base
    identifiers of entries it fetched and accepted; when these are at most
    1000 it holds them all. *)
Theorem saved_store_contents
    (processed_papers : gset string) (today : date) (amount_of_days : Z)
    (categories keywords authors excluded_categories : option (list string)) :
  let es := fetched_entries arxiv_api today amount_of_days categories keywords
              authors in
  let o := alert processed_papers today amount_of_days categories keywords authors
             excluded_categories in
  (forall b, b ∈ store_after processed_papers o ->
             b ∈ processed_papers
             \/ exists e, e ∈ es
                          /\ accepted categories excluded_categories keywords e = true
                          /\ base_arxiv_id (entry_id e) = b)
  /\ ((size (processed_papers ∪ added o) <= 1000)%nat ->
      store_after processed_papers o = processed_papers ∪ added o).
Proof.
  intros es o.
  destruct (added_summary processed_papers today amount_of_days categories keywords
              authors excluded_categories) as [Ha Hs].
  fold es o in Ha, Hs.
  assert (Hsub : store_after processed_papers o ⊆ processed_papers ∪ added o).
  { rewrite Hs. destruct (nonempty es); [apply clean_subseteq | set_solver]. }
  split.
  - intros b Hb. apply Hsub, elem_of_union in Hb as [Hb | Hb]; [by left | right].
    by apply added_accepted in Hb as [_ Hb].
  - apply saved_store_small.
Qed.

(** *** The two digests of a day *)

Variable weekday : date -> Z.


End SavedStore.

Lemma clean_old_processed_papers_idempotent_witness :
  clean_old_processed_papers elements
    (clean_old_processed_papers elements {["2411.00001"]})
  = clean_old_processed_papers elements {["2411.00001"]}.
Proof.
  exact (clean_old_processed_papers_idempotent elements
           (fun s => reflexivity (elements s)) {["2411.00001"]}).
Defined.

Lemma store_file_round_trip_witness :
  load_processed_papers (save_processed_papers elements {["2411.00001"; "2411.00002"]})
  = Some {["2411.00001"; "2411.00002"]}.
Proof.
  exact (proj1 (store_file_round_trip elements (fun s => reflexivity (elements s))
                  (one_page []) no_comments "" "") _).
Defined.

Lemma saved_store_contents_witness :
  let o := arxiv_alert elements (one_page [lensing_v1; flares_v1]) no_comments "" ""
             {["2411.00002"]} (mkdate 2024 11 21) 1 None None None None in
  store_after {["2411.00002"]} o = {["2411.00002"]} ∪ added o.
Proof.
  apply (saved_store_contents elements (fun s => reflexivity (elements s))
           (one_page [lensing_v1; flares_v1]) no_comments "" ""
           {["2411.00002"]} (mkdate 2024 11 21) 1 None None None None).
  vm_compute. lia.
Defined.


(** ** An empty keyword list *)

Section EmptyKeywords.

Variable get_paper_comments : string -> string.
Variable processed_papers : gset string.
Variables categories excluded_categories : option (list string).
Variables start_window yesterday : date.

Lemma process_entry_no_keywords (st : loop_state) (e : entry) :
  let st' := process_entry get_paper_comments processed_papers categories
               excluded_categories (Some []) start_window yesterday st e in
  shown_papers_count st' = shown_papers_count st
  /\ new_papers_count st' = new_papers_count st
  /\ new_processed_papers st' = new_processed_papers st
  /\ body st' = body st.
Proof.
  unfold process_entry. rewrite filter_chain_cases.
  destruct (fails_required categories e); [by destruct (bool_decide _) |].
  destruct (fails_excluded excluded_categories e); [by destruct (bool_decide _) |].
  cbn [fails_keywords find_matching_keywords nonempty negb].
  by destruct (bool_decide _).
Qed.

Lemma process_entries_no_keywords (es : list entry) (st : loop_state) :
  let st' := process_entries get_paper_comments processed_papers categories
               excluded_categories (Some []) start_window yesterday st es in
  shown_papers_count st' = shown_papers_count st
  /\ new_papers_count st' = new_papers_count st
  /\ new_processed_papers st' = new_processed_papers st
  /\ body st' = body st.
Proof.
  revert st. induction es as [|e l IH]; intros st; [done |].
  cbn zeta. rewrite process_entries_cons.
  destruct (IH (process_entry get_paper_comments processed_papers categories
                  excluded_categories (Some []) start_window yesterday st e))
    as (-> & -> & -> & ->).
  apply process_entry_no_keywords.
Qed.

(** A keyword list that is empty, as opposed to absent, shows nothing: the
    query is built as if no keywords were given, and the keyword check then
    rejects every entry the category checks let through. *)
Theorem empty_keyword_list_shows_nothing (authors : option (list string))
    (start_date end_date : option date) (head : string) (es : list entry) :
  let st := process_entries get_paper_comments processed_papers categories
              excluded_categories (Some []) start_window yesterday
              (initial_state head) es in
  build_arxiv_query categories (Some []) authors start_date end_date
  = build_arxiv_query categories None authors start_date end_date
  /\ keyword_batches (Some []) = [None]
  /\ shown_papers_count st = 0%nat
  /\ new_papers_count st = 0%nat
  /\ new_processed_papers st = ∅
  /\ body st = head.
Proof.
  split; [done |]. split; [done |].
  apply (process_entries_no_keywords es (initial_state head)).
Qed.

End EmptyKeywords.

(** ** The date window *)

Lemma date_le_trans (a b c : date) :
  date_le a b = true -> date_le b c = true -> date_le a c = true.
Proof.
  unfold date_le.
  rewrite !orb_true_iff, !andb_true_iff, !orb_true_iff, !andb_true_iff,
    !Z.ltb_lt, !Z.eqb_eq, !Z.leb_le.
  lia.
Qed.

Lemma in_window_widening (s t s' t' d : date) :
  date_le s' s = true -> date_le t t' = true ->
  in_window s t d = true -> in_window s' t' d = true.
Proof.
  unfold in_window. rewrite !andb_true_iff. intros Hs Ht [H1 H2].
  split; eauto using date_le_trans.
Qed.

(** An entry in range for a window is in range for every window that
    contains it. *)
Theorem is_date_in_range_widening (e : entry) (s t s' t' : date) :
  date_le s' s = true -> date_le t t' = true ->
  is_date_in_range e s t = true -> is_date_in_range e s' t' = true.
Proof.
  intros Hs Ht. rewrite !is_date_in_range_unfold.
  repeat (destruct (parse_arxiv_date _); [by apply in_window_widening |]).
  done.
Qed.

Lemma is_date_in_range_widening_witness :
  is_date_in_range dated_entry (mkdate 2024 9 1) (mkdate 2024 12 31) = true.
Proof.
  apply (is_date_in_range_widening dated_entry (mkdate 2024 9 30) (mkdate 2024 10 1));
    vm_compute; reflexivity.
Defined.

(** ** The link of the title *)



(** ** Base identifiers *)

Section BaseIdFacts.
Import PyStr.

Lemma has_char_before_char (c : ascii) (s : string) :
  has_char c (before_char c s) = false.
Proof.
  induction s as [|a s IH]; [done |]. cbn [before_char].
  destruct (Ascii.eqb a c) eqn:E; [done |]. cbn [has_char]. by rewrite E, IH.
Qed.

Lemma before_char_prefix (c : ascii) (s : string) :
  startswith (before_char c s) s = true.
Proof.
  induction s as [|a s IH]; [done |]. cbn [before_char].
  destruct (Ascii.eqb a c); [done |]. cbn [startswith].
  by rewrite Ascii.eqb_refl, IH.
Qed.

(** A base identifier is the part of the identifier before its first ['v']:
    it has no ['v'] in it, it is a prefix of the identifier, and it is its
    own base identifier. *)
Theorem base_arxiv_id_stable (arxiv_id : string) :
  has_char "v" (base_arxiv_id arxiv_id) = false
  /\ startswith (base_arxiv_id arxiv_id) arxiv_id = true
  /\ base_arxiv_id (base_arxiv_id arxiv_id) = base_arxiv_id arxiv_id.
Proof.
  rewrite !base_arxiv_id_before_v.
  split; [apply has_char_before_char |]. split; [apply before_char_prefix |].
  apply before_char_absent, has_char_before_char.
Qed.

End BaseIdFacts.

(** ** The page *)

Section PageFacts.
Import PyStr.

Variable set_to_list : gset string -> list string.
Variable arxiv_api : string -> Z -> Z -> option (list entry).
Variable get_paper_comments : string -> string.
Variables style_block mathjax_block : string.

Local Abbreviation alert := (arxiv_alert set_to_list arxiv_api get_paper_comments
                               style_block mathjax_block).

Lemma contains_concat_str (x : string) (l : list string) :
  x ∈ l -> contains x (concat_str l) = true.
Proof.
  induction l as [|y l IH]; intros Hin; [by apply elem_of_nil in Hin |].
  cbn [concat_str foldr]. apply elem_of_cons in Hin as [-> | Hin].
  - apply contains_app_l, contains_refl.
  - by apply contains_app_r, IH.
Qed.

Lemma digest_page (processed_papers : gset string) (today : date)
    (amount_of_days : Z)
    (categories keywords authors excluded_categories : option (list string)) :
  let es := fetched_entries arxiv_api today amount_of_days categories keywords
              authors in
  let o := alert processed_papers today amount_of_days categories keywords authors
             excluded_categories in
  let start_window := window_start today amount_of_days in
  let yesterday := window_end today in
  if nonempty es
  then exists summary,
         page o
         = page_head style_block mathjax_block true start_window yesterday
           +:+ concat_str (block_of get_paper_comments processed_papers categories
                             excluded_categories keywords <$> es)
           +:+ summary +:+ "</body></html>"
  else o = NoPapers (no_papers_page style_block mathjax_block start_window yesterday
                       (length (keyword_batches keywords))).
Proof.
  unfold arxiv_alert, fetched_entries, window_start, window_end. cbn zeta.
  match goal with
  | |- context [all_entries ?F] => generalize (all_entries F)
  end.
  intros [|e es]; [done |].
  cbn [nonempty page]. unfold finish_page.
  match goal with
  | |- context [process_entries ?g ?p ?c ?x ?k ?sw ?y ?st ?l] =>
      destruct (process_entries_effect g p c x k sw y l st) as (Hb & _);
      generalize dependent (process_entries g p c x k sw y st l)
  end.
  intros st Hb. rewrite Hb. cbn [initial_state body].
  match goal with
  | |- context [?x +:+ "</body></html>"] => exists x
  end.
  apply app_assoc_str.
Qed.

Lemma length_filter_cons {A : Type} (f : A -> bool) (x : A) (l : list A) :
  length (filter f (x :: l))
  = ((if f x then 1 else 0) + length (filter f l))%nat.
Proof.
  rewrite filter_cons. by destruct (f x) eqn:E; case_decide as H.
Qed.



(** What [arxiv_alert] returns, in terms of the loop over the entries it
    fetched. *)
Lemma arxiv_alert_digest (processed_papers : gset string) (today : date)
    (amount_of_days : Z)
    (categories keywords authors excluded_categories : option (list string)) :
  let es := fetched_entries arxiv_api today amount_of_days categories keywords
              authors in
  let start_window := window_start today amount_of_days in
  let yesterday := window_end today in
  let final :=
    process_entries get_paper_comments processed_papers categories
      excluded_categories keywords start_window yesterday
      (initial_state (page_head style_block mathjax_block true start_window yesterday))
      es in
  alert processed_papers today amount_of_days categories keywords authors
    excluded_categories
  = if nonempty es
    then Digest (finish_page (length es) final) final
           (clean_old_processed_papers set_to_list
              (processed_papers ∪ new_processed_papers final))
    else NoPapers (no_papers_page style_block mathjax_block start_window yesterday
                     (length (keyword_batches keywords))).
Proof.
  unfold arxiv_alert, fetched_entries, window_start, window_end. cbn zeta.
  match goal with
  | |- context [all_entries ?F] => generalize (all_entries F)
  end.
  by intros [|e es].
Qed.


Ltac find_part :=
  solve [ apply contains_refl
        | apply contains_app_l; apply contains_refl
        | apply contains_app_r; find_part ].

Lemma entry_html_parts (keywords : option (list string)) (e : entry) (seen : bool)
    (matching_keywords : list string) :
  let block := entry_html get_paper_comments keywords e seen matching_keywords in
  contains (title e +:+ new_badge seen) block = true
  /\ contains ("<strong><u>Categories:</u></strong> " +:+ join ", " (tags e) +:+ "<br>")
       block = true
  /\ contains ("<strong><u>Comments:</u></strong> " +:+ get_paper_comments (entry_id e)
               +:+ "<br>") block = true
  /\ contains ("<p><strong><u>Abstract:</u></strong> " +:+ summary e +:+ "</p>")
       block = true.
Proof.
  cbn zeta. unfold entry_html. split; [|split; [|split]].
  - apply contains_app_l. unfold title_html.
    rewrite <- (app_assoc_str (title e) (new_badge seen) "</h2></a>").
    find_part.
  - find_part.
  - find_part.
  - find_part.
Qed.


Lemma block_in_page (processed_papers : gset string) (today : date)
    (amount_of_days : Z)
    (categories keywords authors excluded_categories : option (list string))
    (e : entry) :
  e ∈ fetched_entries arxiv_api today amount_of_days categories keywords authors ->
  contains (block_of get_paper_comments processed_papers categories
              excluded_categories keywords e)
    (page (alert processed_papers today amount_of_days categories keywords authors
             excluded_categories)) = true.
Proof.
  intros He.
  pose proof (digest_page processed_papers today amount_of_days categories keywords
                authors excluded_categories) as H.
  cbn zeta in H.
  destruct (fetched_entries arxiv_api today amount_of_days categories keywords authors)
    as [|e0 l] eqn:Ees; [by apply elem_of_nil in He |].
  cbn [nonempty] in H. destruct H as [summary ->].
  apply contains_app_r, contains_app_l, contains_concat_str.
  apply list_elem_of_fmap. by exists e.
Qed.

(** C1 (as the code has it). A fetched entry whose base identifier is in the
    loaded store is counted as already processed, does not count as new and
    adds nothing to the set of newly processed identifiers.  When it passes
    the filter chain it is on the page the run writes: its title followed by
    the seen-before badge, its categories, its comments and its abstract.
    When it fails the chain the loop appends nothing for it. *)
Theorem seen_before_entry_flagged_not_new
    (processed_papers : gset string) (today : date) (amount_of_days : Z)
    (categories keywords authors excluded_categories : option (list string))
    (e : entry) :
  let es := fetched_entries arxiv_api today amount_of_days categories keywords
              authors in
  let o := alert processed_papers today amount_of_days categories keywords authors
             excluded_categories in
  let is_new := counts_as_new processed_papers categories excluded_categories
                  keywords in
  e ∈ es ->
  base_arxiv_id (entry_id e) ∈ processed_papers ->
  exists final,
    final_state o = Some final
    /\ seen_before processed_papers e = true
    /\ already_processed_count final
       = length (filter (seen_before processed_papers) es)
    /\ (1 <= already_processed_count final)%nat
    /\ is_new e = false
    /\ new_papers_count final = length (filter is_new es)
    /\ base_arxiv_id (entry_id e) ∉ new_processed_papers final
    /\ (accepted categories excluded_categories keywords e = true ->
        contains (title e +:+ " <span style=" +:+ q +:+ "color: #999; font-size: 0.8em;"
                  +:+ q +:+ ">(seen before)</span>") (page o) = true
        /\ contains ("<strong><u>Categories:</u></strong> " +:+ join ", " (tags e)
                     +:+ "<br>") (page o) = true
        /\ contains ("<strong><u>Comments:</u></strong> "
                     +:+ get_paper_comments (entry_id e) +:+ "<br>") (page o) = true
        /\ contains ("<p><strong><u>Abstract:</u></strong> " +:+ summary e +:+ "</p>")
             (page o) = true)
    /\ (forall sw y st,
          let st' := process_entry get_paper_comments processed_papers categories
                       excluded_categories keywords sw y st e in
          already_processed_count st' = S (already_processed_count st)
          /\ new_papers_count st' = new_papers_count st
          /\ new_processed_papers st' = new_processed_papers st
          /\ (forall matching_keywords,
                filter_chain categories excluded_categories keywords e
                  = Accepted matching_keywords ->
                shown_papers_count st' = S (shown_papers_count st)
                /\ body st'
                   = body st +:+ entry_html get_paper_comments keywords e true
                                   matching_keywords)
          /\ (accepted categories excluded_categories keywords e = false ->
              body st' = body st
              /\ shown_papers_count st' = shown_papers_count st)).
Proof.
  intros es o is_new Hin Hseen.
  assert (Hsb : seen_before processed_papers e = true).
  { unfold seen_before. by apply bool_decide_eq_true. }
  assert (Hnew : is_new e = false).
  { unfold is_new, counts_as_new. rewrite Hsb. apply andb_false_r. }
  pose proof (arxiv_alert_digest processed_papers today amount_of_days categories
                keywords authors excluded_categories) as Ho.
  cbn zeta in Ho. fold es o in Ho.
  pose proof (block_in_page processed_papers today amount_of_days categories keywords
                authors excluded_categories e Hin) as Hblock.
  fold o in Hblock.
  destruct (process_entries_effect get_paper_comments processed_papers categories
              excluded_categories keywords (window_start today amount_of_days)
              (window_end today) es
              (initial_state (page_head style_block mathjax_block true
                                (window_start today amount_of_days)
                                (window_end today))))
    as (_ & Hn & _ & Ha & _ & Hp).
  cbn [initial_state new_papers_count already_processed_count new_processed_papers
       Nat.add] in Hn, Ha, Hp.
  assert (Hne : nonempty es = true).
  { destruct es; [by apply elem_of_nil in Hin | done]. }
  rewrite Hne in Ho.
  eexists. split; [rewrite Ho; reflexivity |].
  split; [exact Hsb |]. split; [exact Ha |]. split.
  { rewrite Ha. apply list_elem_of_split in Hin as (l1 & l2 & ->).
    rewrite filter_app, length_app, length_filter_cons, Hsb. lia. }
  split; [exact Hnew |]. split; [exact Hn |]. split.
  { rewrite Hp, elem_of_union, elem_of_list_to_set, list_elem_of_fmap.
    intros [Hemp | (e' & Heq & He')]; [by apply elem_of_empty in Hemp |].
    apply list_elem_of_filter in He' as [He' _].
    unfold counts_as_new, seen_before in He'.
    apply Is_true_true in He'. apply andb_true_iff in He' as [_ He'].
    apply negb_true_iff, bool_decide_eq_false in He'. apply He'.
    by rewrite <- Heq. }
  split.
  { intros Hacc. revert Hblock. generalize (page o). intros pg Hblock.
    unfold block_of, accepted in *.
    destruct (filter_chain categories excluded_categories keywords e) as [| | |mk];
      try discriminate.
    rewrite Hsb in Hblock.
    destruct (entry_html_parts keywords e true mk) as (H1 & H2 & H3 & H4).
    change (new_badge true)
      with (" <span style=" +:+ q +:+ "color: #999; font-size: 0.8em;" +:+ q
            +:+ ">(seen before)</span>") in H1.
    repeat split; eapply contains_trans; eauto. }
  intros sw y st st'.
  destruct (process_entry_effect get_paper_comments processed_papers categories
              excluded_categories keywords sw y st e)
    as (Hb' & Hn' & Hs' & Ha' & _ & Hp').
  fold st' in Hb', Hn', Hs', Ha', Hp'. fold is_new in Hn', Hp'.
  rewrite Hnew in Hn', Hp'. rewrite Hsb in Ha'.
  split; [lia |]. split; [lia |]. split; [set_solver |]. split.
  - intros mk Hmk. rewrite Hb', Hs'. unfold block_of, accepted.
    rewrite Hmk, Hsb. split; [lia | done].
  - intros Hacc. rewrite Hb', Hs', Hacc. unfold block_of. unfold accepted in Hacc.
    destruct (filter_chain categories excluded_categories keywords e);
      try discriminate; rewrite app_empty_r; split; try done; lia.
Qed.

End PageFacts.

(** A paper already in the store, accepted by a run without filters: it is
    not new, and the page shows its title with the seen-before badge. *)
Lemma seen_before_entry_flagged_not_new_witness :
  let o := arxiv_alert elements (one_page [flares_v1]) no_comments "" ""
             {["2411.00001"]} (mkdate 2024 11 21) 1 None None None None in
  (new_papers_count <$> final_state o) = Some 0%nat
  /\ PyStr.contains ("Stellar flares" +:+ " <span style=" +:+ q
                     +:+ "color: #999; font-size: 0.8em;" +:+ q
                     +:+ ">(seen before)</span>") (page o) = true.
Proof.
  destruct (seen_before_entry_flagged_not_new elements (one_page [flares_v1])
              no_comments "" "" {["2411.00001"]} (mkdate 2024 11 21) 1
              None None None None flares_v1)
    as (final & Hfinal & _ & _ & _ & _ & Hcount & _ & Hpage & _).
  - vm_compute. apply list_elem_of_here.
  - apply (bool_decide_unpack _). vm_compute. exact I.
  - split.
    + cbn zeta. rewrite Hfinal. cbn [fmap option_fmap option_map]. rewrite Hcount.
      vm_compute. reflexivity.
    + apply Hpage. vm_compute. reflexivity.
Defined.


(** ** The window of a run *)

Lemma days_in_month_bounds (y m : Z) : 28 <= days_in_month y m <= 31.
Proof.
  unfold days_in_month.
  destruct (m =? 2); [destruct (is_leap y); lia |].
  destruct ((m =? 4) || (m =? 6) || (m =? 9) || (m =? 11)); lia.
Qed.

Lemma calendar_day_spec (d : date) :
  calendar_day d = true
  <-> 1 <= month d <= 12 /\ 1 <= day d <= days_in_month (year d) (month d).
Proof. unfold calendar_day. rewrite !andb_true_iff, !Z.leb_le. lia. Qed.

Lemma date_le_spec (a b : date) :
  date_le a b = true
  <-> year a < year b
      \/ (year a = year b
          /\ (month a < month b \/ (month a = month b /\ day a <= day b))).
Proof.
  unfold date_le.
  by rewrite !orb_true_iff, !andb_true_iff, !orb_true_iff, !andb_true_iff,
    !Z.ltb_lt, !Z.eqb_eq, !Z.leb_le.
Qed.

Lemma prev_day_calendar (d : date) :
  calendar_day d = true ->
  calendar_day (prev_day d) = true
  /\ date_le (prev_day d) d = true
  /\ date_le d (prev_day d) = false.
Proof.
  rewrite !calendar_day_spec, <- not_true_iff_false, !date_le_spec.
  intros [Hm Hd]. unfold prev_day.
  destruct (1 <? day d) eqn:E1; [apply Z.ltb_lt in E1 | apply Z.ltb_ge in E1].
  { cbn [year month day]. lia. }
  destruct (1 <? month d) eqn:E2; [apply Z.ltb_lt in E2 | apply Z.ltb_ge in E2];
    cbn [year month day].
  - pose proof (days_in_month_bounds (year d) (month d - 1)). lia.
  - change (days_in_month (year d - 1) 12) with 31. lia.
Qed.

Lemma minus_days_calendar (d : date) (n : Z) :
  calendar_day d = true ->
  calendar_day (minus_days d n) = true /\ date_le (minus_days d n) d = true.
Proof.
  intros Hd. unfold minus_days. induction (Z.to_nat n) as [|k [IH1 IH2]].
  - change (Nat.iter 0 prev_day d) with d. split; [done |]. apply date_le_spec.
    right. split; [done |]. right. split; [done | lia].
  - change (Nat.iter (S k) prev_day d) with (prev_day (Nat.iter k prev_day d)).
    destruct (prev_day_calendar _ IH1) as (H1 & H2 & _).
    split; [done |]. by apply (date_le_trans _ _ _ H2).
Qed.

Lemma date_le_year (a b : date) : date_le a b = true -> year a <= year b.
Proof. rewrite date_le_spec. lia. Qed.

Lemma valid_date_spec (d : date) :
  valid_date (year d) (month d) (day d) = true
  <-> 1 <= year d <= 9999 /\ calendar_day d = true.
Proof.
  unfold valid_date, calendar_day. rewrite !andb_true_iff, !Z.leb_le. tauto.
Qed.

(** As long as the earliest date a run computes, [api_start_window], is not
    before 0001-01-01 (where the subtraction raises), the dates of the run
    are dates and are in order whatever the number of days asked for: the
    query starts no later than the window, the window starts no later than
    it ends, and it ends on the day before today.  A number of days below
    one gives the window of one day. *)
Theorem window_is_ordered (today : date) (amount_of_days : Z) :
  let yesterday := window_end today in
  let start_window := window_start today amount_of_days in
  let api_start_window := minus_days start_window 1 in
  valid_date (year today) (month today) (day today) = true ->
  1 <= year api_start_window ->
  yesterday = prev_day today
  /\ date_le yesterday today = true
  /\ date_le today yesterday = false
  /\ date_le start_window yesterday = true
  /\ date_le api_start_window start_window = true
  /\ valid_date (year yesterday) (month yesterday) (day yesterday) = true
  /\ valid_date (year start_window) (month start_window) (day start_window) = true
  /\ valid_date (year api_start_window) (month api_start_window)
       (day api_start_window) = true
  /\ (amount_of_days <= 1 -> start_window = yesterday).
Proof.
  intros yesterday start_window api_start_window Hvalid Hyear.
  apply valid_date_spec in Hvalid as [Hy Ht].
  subst yesterday start_window api_start_window. unfold window_start, window_end in *.
  change (minus_days today 1) with (prev_day today) in *.
  destruct (prev_day_calendar today Ht) as (Hyc & Hle & Hnle).
  destruct (minus_days_calendar (prev_day today)
              ((if amount_of_days <? 1 then 1 else amount_of_days) - 1) Hyc)
    as [Hs Hsle].
  destruct (minus_days_calendar
              (minus_days (prev_day today)
                 ((if amount_of_days <? 1 then 1 else amount_of_days) - 1)) 1 Hs)
    as [Ha Hale].
  pose proof (date_le_year _ _ Hle). pose proof (date_le_year _ _ Hsle).
  pose proof (date_le_year _ _ Hale).
  do 5 (split; [done |]).
  split; [apply valid_date_spec; split; [lia | done] |].
  split; [apply valid_date_spec; split; [lia | done] |].
  split; [apply valid_date_spec; split; [lia | done] |].
  intros Hn. unfold minus_days.
  replace (Z.to_nat ((if amount_of_days <? 1 then 1 else amount_of_days) - 1))
    with 0%nat; [done |].
  destruct (amount_of_days <? 1) eqn:E; [done |]. apply Z.ltb_ge in E. lia.
Qed.

Lemma window_is_ordered_witness :
  window_end (mkdate 2024 3 1) = mkdate 2024 2 29
  /\ date_le (window_start (mkdate 2024 3 1) 3) (window_end (mkdate 2024 3 1)) = true.
Proof.
  destruct (window_is_ordered (mkdate 2024 3 1) 3) as (H1 & _ & _ & H4 & _).
  - reflexivity.
  - vm_compute. discriminate.
  - split; [exact H1 | exact H4].
Defined.
